(** * Knex instrumentation: a shallow embedding of [instrumentation.ts]

    The development follows
    [plugins/node/opentelemetry-instrumentation-knex/src/instrumentation.ts]:
    the configuration merge of the constructor and of [setConfig], the
    re-wrap guard [ensureWrapped], the context capturing factory wrapper
    [storeContext] and the query wrapper built by [createQueryWrapper].

    JavaScript values are first-order data, objects live in a heap of
    property tables, the host library's functions are Rocq functions on
    that heap, and every call the wrappers make to a collaborator (the
    [utils] helpers, the tracer, the wrapped original) is appended to a
    call log, in program order. *)

From Stdlib Require Import ZArith String Ascii List Lia.
From stdpp Require Import base decidable option countable gmap strings list fin_maps.

Local Open Scope string_scope.
Local Open Scope Z_scope.
Local Open Scope list_scope.

(** ** JavaScript values *)

(** [SpanContext], [Span] and [Context] are the objects of
    [@opentelemetry/api] the module handles.  A context is immutable; what
    it holds besides the span is opaque to this module. *)
Record SpanContext := mkSpanContext {
  traceId : string;
  spanId : string
}.

Record Span := mkSpan {
  span_handle : nat;
  spanContext : SpanContext
}.

Record Context := mkContext {
  ctx_span : option Span;
  ctx_rest : nat
}.

#[global] Instance SpanContext_eq_dec : EqDecision SpanContext.
Proof. solve_decision. Defined.
#[global] Instance Span_eq_dec : EqDecision Span.
Proof. solve_decision. Defined.
#[global] Instance Context_eq_dec : EqDecision Context.
Proof. solve_decision. Defined.

(** Heap addresses of objects. *)
Definition loc := nat.

(** The numbers are the integer valued ones and [NaN], the one number
    that is falsy without being 0; contexts are objects too but are kept
    as values since they never change. *)
Inductive JSValue :=
| VUndefined
| VNull
| VBool (b : bool)
| VNumber (n : Z)
| VNaN
| VString (s : string)
| VContext (c : Context)
| VObject (l : loc).

#[global] Instance JSValue_eq_dec : EqDecision JSValue.
Proof. solve_decision. Defined.

(** ToBoolean. *)
Definition truthy (v : JSValue) : bool :=
  match v with
  | VUndefined | VNull => false
  | VBool b => b
  | VNumber n => negb (Z.eqb n 0)
  | VNaN => false
  | VString s => negb (String.eqb s "")
  | VContext _ | VObject _ => true
  end.

(** [a || b] *)
Definition js_or (a b : JSValue) : JSValue := if truthy a then a else b.

(** [a === b] on the values of this model: [NaN] equals nothing, itself
    included. *)
Definition strict_eq (a b : JSValue) : bool :=
  match a, b with
  | VNaN, _ | _, VNaN => false
  | _, _ => bool_decide (a = b)
  end.

(** The values [ToBoolean] sends to [false]. *)
Definition falsy_values : list JSValue :=
  [VUndefined; VNull; VBool false; VNumber 0; VNaN; VString ""].

(** What a [throw] carries: a value that existed before (an error the host
    raised), or a [TypeError] the engine creates on the spot while the
    instrumentation's own code runs.  The second is a new object, hence
    never identical to a value of the first kind. *)
Inductive Exception :=
| Raised (v : JSValue)
| TypeError (reason : string).

Inductive Completion (A : Type) :=
| Normal (a : A)
| Throw (e : Exception).
Arguments Normal {A} a.
Arguments Throw {A} e.

(** ** Objects and the heap *)

(** Property keys: strings, and symbols told apart by a serial number. *)
Inductive PropKey :=
| KString (s : string)
| KSymbol (serial : nat).

#[global] Instance PropKey_eq_dec : EqDecision PropKey.
Proof. solve_decision. Defined.

#[global] Instance PropKey_countable : Countable PropKey.
Proof.
  refine (inj_countable'
            (fun k => match k with KString s => inl s | KSymbol n => inr n end)
            (fun x => match x with inl s => KString s | inr n => KSymbol n end) _).
  by intros [].
Defined.

(** A data property with its attributes. *)
Record Property := mkProperty {
  p_value : JSValue;
  p_writable : bool;
  p_enumerable : bool;
  p_configurable : bool
}.

#[global] Instance Property_eq_dec : EqDecision Property.
Proof. solve_decision. Defined.

Record Obj := mkObj {
  o_props : gmap PropKey Property;
  o_extensible : bool
}.

Abbreviation Heap := (gmap loc Obj).

(** [o[k]] on own data properties. *)
Definition own_property (h : Heap) (l : loc) (k : PropKey) : option Property :=
  o ← h !! l; o_props o !! k.

Definition get_own (h : Heap) (l : loc) (k : PropKey) : JSValue :=
  from_option p_value VUndefined (own_property h l k).

(** [v.k]: reading a property of [undefined] or [null] throws; a primitive
    has none of the properties read in this module. *)
Definition get (h : Heap) (v : JSValue) (k : PropKey) : Completion JSValue :=
  match v with
  | VUndefined | VNull => Throw (TypeError "Cannot read properties of undefined or null")
  | VObject l => Normal (get_own h l k)
  | _ => Normal VUndefined
  end.

(** [v?.k] *)
Definition get_opt (h : Heap) (v : JSValue) (k : PropKey) : JSValue :=
  match v with
  | VObject l => get_own h l k
  | _ => VUndefined
  end.

(** [Object.defineProperty(target, k, { value: v })]: the descriptor has a
    value and nothing else.  A new property gets every absent attribute as
    [false]; an existing one keeps its attributes and takes the value when
    it is configurable or writable, and otherwise accepts only the value it
    already has. *)
Definition defineProperty (h : Heap) (target : JSValue) (k : PropKey) (v : JSValue)
  : Completion Heap :=
  match target with
  | VObject l =>
      match h !! l with
      | None => Throw (TypeError "Object.defineProperty called on non-object")
      | Some o =>
          match o_props o !! k with
          | None =>
              if o_extensible o
              then Normal (<[l := mkObj (<[k := mkProperty v false false false]> (o_props o))
                                        (o_extensible o)]> h)
              else Throw (TypeError "Cannot define property, object is not extensible")
          | Some p =>
              if p_configurable p || p_writable p
              then Normal (<[l := mkObj (<[k := mkProperty v (p_writable p) (p_enumerable p)
                                                           (p_configurable p)]> (o_props o))
                                        (o_extensible o)]> h)
              else if bool_decide (p_value p = v) then Normal h
              else Throw (TypeError "Cannot redefine property")
          end
      end
  | _ => Throw (TypeError "Object.defineProperty called on non-object")
  end.

(** [target[k] = v] in strict mode, on own data properties. *)
Definition assign (h : Heap) (l : loc) (k : PropKey) (v : JSValue) : Completion Heap :=
  match h !! l with
  | None => Throw (TypeError "Cannot set properties of undefined")
  | Some o =>
      match o_props o !! k with
      | None =>
          if o_extensible o
          then Normal (<[l := mkObj (<[k := mkProperty v true true true]> (o_props o))
                                    (o_extensible o)]> h)
          else Throw (TypeError "Cannot add property, object is not extensible")
      | Some p =>
          if p_writable p
          then Normal (<[l := mkObj (<[k := mkProperty v true (p_enumerable p)
                                                       (p_configurable p)]> (o_props o))
                                    (o_extensible o)]> h)
          else Throw (TypeError "Cannot assign to read only property")
      end
  end.

(** [delete target[k]] in strict mode. *)
Definition delete_property (h : Heap) (l : loc) (k : PropKey) : Completion Heap :=
  match h !! l with
  | None => Normal h
  | Some o =>
      match o_props o !! k with
      | None => Normal h
      | Some p =>
          if p_configurable p
          then Normal (<[l := mkObj (delete k (o_props o)) (o_extensible o)]> h)
          else Throw (TypeError "Cannot delete property")
      end
  end.

(** The keys [Object.keys], [for..in], spread and [Object.assign] see. *)
Definition enumerable_keys (h : Heap) (l : loc) : gset PropKey :=
  match h !! l with
  | None => ∅
  | Some o => dom (filter (fun kp => p_enumerable kp.2 = true) (o_props o))
  end.

(** ** Strings *)

Fixpoint string_drop (n : nat) (s : string) : string :=
  match n, s with
  | O, _ => s
  | S n', String _ s' => string_drop n' s'
  | S _, EmptyString => EmptyString
  end.

(** [s.replace(pattern, '')] for a string [pattern]: the first occurrence
    of the pattern, wherever it is, is cut out. *)
Fixpoint replace_first (pattern s : string) : string :=
  if String.prefix pattern s then string_drop (String.length pattern) s
  else match s with
       | EmptyString => EmptyString
       | String c s' => String c (replace_first pattern s')
       end.

(** ** Configuration of the instrumentation *)

Abbreviation KnexInstrumentationConfig := (gmap string JSValue).

Definition DEFAULT_CONFIG : gmap string JSValue :=
  <["requireParentSpan" := VBool false]> (<["maxQueryLength" := VNumber 1022]> ∅).

(** [{ ...a, ...b }]: the own properties of [b] over those of [a].  A
    property of [b] whose value is [undefined] is an own property like any
    other. *)
Definition spread (a b : gmap string JSValue) : gmap string JSValue := b ∪ a.

(** The instance state the module reads: [_config] of [InstrumentationBase],
    which stores the object it is handed. *)
Record KnexInstrumentation := mkInstrumentation {
  _config : gmap string JSValue
}.

(** A parameter with the default [= {}]: [None] is an omitted argument. *)
Definition or_empty (config : option (gmap string JSValue)) : gmap string JSValue :=
  default ∅ config.

(** [constructor(config = {})] *)
Definition new_KnexInstrumentation (config : option (gmap string JSValue))
  : KnexInstrumentation :=
  mkInstrumentation (spread DEFAULT_CONFIG (or_empty config)).

(** [setConfig(config = {})] *)
Definition setConfig (config : option (gmap string JSValue)) (self : KnexInstrumentation)
  : KnexInstrumentation :=
  mkInstrumentation (spread DEFAULT_CONFIG (or_empty config)).

Definition getConfig (self : KnexInstrumentation) : gmap string JSValue := _config self.

(** [config.k] on a configuration object. *)
Definition option_of (config : gmap string JSValue) (k : string) : JSValue :=
  default VUndefined (config !! k).

(** The options the instrumentation recognizes. *)
Definition recognized_options : list string := ["maxQueryLength"; "requireParentSpan"].

(** ** The method interceptor *)

Section Interceptor.
Context {F W : Type}.

(** A method is a function of the host, or the function a wrapper factory
    made from an original and that [_wrap] marked. *)
Inductive Method :=
| HostMethod (f : F)
| Wrapped (wrapper : W) (__original : Method).

(** What a method was made from: its [__original], or itself for a method
    of the host. *)
Definition original_of (m : Method) : Method :=
  match m with
  | Wrapped _ original => original
  | HostMethod _ => m
  end.

(** Modelled from the spec: [isWrapped] comes from the instrumentation base
    library and is not under src/.  Spec 4.1: an intercepted method is
    "detectable via a wrapped-marker". *)
Definition isWrapped (m : option Method) : bool :=
  match m with
  | Some (Wrapped _ _) => true
  | _ => false
  end.

(** Modelled from the spec: [_wrap] comes from the instrumentation base
    library and is not under src/.  Spec 4.1: it "replaces
    [target[methodName]] with [wrapperFactory(originalMethod)]",
    "remembers the original for restoration", and "if [methodName] is
    absent, underlying wrap operation fails". *)
Definition _wrap (obj : gmap string Method) (methodName : string) (wrapper : W)
  : option (gmap string Method) :=
  original ← obj !! methodName;
  Some (<[methodName := Wrapped wrapper original]> obj).

(** Modelled from the spec: [_unwrap] comes from the instrumentation base
    library and is not under src/.  Spec 4.1: the "inverse
    [unwrap(target, methodName)] restoring the original". *)
Definition _unwrap (obj : gmap string Method) (methodName : string)
  : gmap string Method :=
  match obj !! methodName with
  | Some (Wrapped _ original) => <[methodName := original]> obj
  | _ => obj
  end.

(** [ensureWrapped(obj, methodName, wrapper)] *)
Definition ensureWrapped (obj : gmap string Method) (methodName : string) (wrapper : W)
  : option (gmap string Method) :=
  let obj := if isWrapped (obj !! methodName) then _unwrap obj methodName else obj in
  _wrap obj methodName wrapper.

(** [ensureWrapped] once per wrapper of a list, as repeated enabling does. *)
Fixpoint ensureWrapped_all (obj : gmap string Method) (methodName : string)
  (wrappers : list W) : option (gmap string Method) :=
  match wrappers with
  | [] => Some obj
  | w :: ws => obj' ← ensureWrapped obj methodName w; ensureWrapped_all obj' methodName ws
  end.

(** The patch and unpatch functions of the runner file: [query] on
    [Runner.prototype]. *)
Definition patch_runner (prototype : gmap string Method) (queryWrapper : W)
  : option (gmap string Method) :=
  ensureWrapped prototype "query" queryWrapper.

Definition unpatch_runner (prototype : gmap string Method) : gmap string Method :=
  _unwrap prototype "query".

(** The patch and unpatch functions of the client file: the three builder
    factories on [Client.prototype], each with its own bound
    [storeContext]. *)
Definition patch_client (prototype : gmap string Method) (w1 w2 w3 : W)
  : option (gmap string Method) :=
  p1 ← ensureWrapped prototype "queryBuilder" w1;
  p2 ← ensureWrapped p1 "schemaBuilder" w2;
  ensureWrapped p2 "raw" w3.

Definition unpatch_client (prototype : gmap string Method) : gmap string Method :=
  _unwrap (_unwrap (_unwrap prototype "queryBuilder") "schemaBuilder") "raw".

End Interceptor.
Arguments Method : clear implicits.

(** ** The host library's objects *)

(** [config.connection] when it is an object; its fields hold whatever the
    application configured. *)
Record Connection := mkConnection {
  filename : JSValue;
  database : JSValue;
  user : JSValue;
  host : JSValue;
  port : JSValue
}.

(** The configuration object the host's client stores as [client.config]:
    [config_client] is [config.client]; [connection] is [None] when
    [config.connection] is missing or is not an object (a connection
    string has none of the fields). *)
Record KnexConfig := mkKnexConfig {
  config_client : JSValue;
  connection : option Connection
}.

(** What the second argument of the host's formatter is: the bindings of
    the query, or the empty array literal of [query.bindings || []]. *)
Inductive Bindings :=
| GivenBindings (v : JSValue)
| EmptyArray.

(** [this.client]: its configuration and the rule by which the host
    interpolates bindings into a statement. *)
Record Client := mkClient {
  config : KnexConfig;
  _formatQuery : Heap -> JSValue -> Bindings -> string
}.

(** The runner a query executes on: [this] of the wrapped [query].  The
    host's constructors always set [this.client], [this.client.config] and
    [this.builder] to objects, and the wrapper reads all three unguarded
    ([this.client.config], [config.client], [this.builder[contextSymbol]]). *)
Record Runner := mkRunner {
  client : Client;
  builder : loc
}.

(** [config?.connection?.f] *)
Definition connection_field (f : Connection -> JSValue) (cfg : KnexConfig) : JSValue :=
  from_option f VUndefined (connection cfg).

(** How the promise of the host's [query] settles, and how the promise
    the wrapper returns does. *)
Inductive HostResult :=
| Resolves (result : JSValue)
| Rejects (err : JSValue).

Inductive Settlement :=
| Fulfilled (result : JSValue)
| Rejected (e : Exception).

(** A promise handed on as it is. *)
Definition unchanged (r : HostResult) : Settlement :=
  match r with
  | Resolves v => Fulfilled v
  | Rejects err => Rejected (Raised err)
  end.

(** The original [Runner.prototype.query]: run under an ambient context,
    on a runner, with arguments; it may change the heap. *)
Definition HostQuery : Type :=
  Context -> Runner -> list JSValue -> Heap -> HostResult * Heap.

(** The original of a builder factory ([queryBuilder], [schemaBuilder],
    [raw]): it returns a value or throws, and may change the heap. *)
Definition Factory : Type :=
  Context -> JSValue -> list JSValue -> Heap -> Completion JSValue * Heap.

(** ** The helpers of [./utils] and the tracing API *)

(** The helpers whose results the module only passes on. *)
Class Utils := {
  extractTableName : Heap -> loc -> JSValue;
  mapSystem : JSValue -> JSValue;
  getName : JSValue -> JSValue -> JSValue -> JSValue
}.

(** Modelled from the spec: [utils.limitLength] is not under src/.  Spec
    4.4: the statement is "the raw SQL text truncated to that length
    (character-count truncation, not word-boundary aware)".  The case the
    spec describes, a text and a positive length, keeps the first
    [maxLength] characters; any other argument is handed back. *)
Definition limitLength (str maxLength : JSValue) : JSValue :=
  match str, maxLength with
  | VString s, VNumber n =>
      if Z.ltb 0 n then VString (String.substring 0 (Z.to_nat n) s) else str
  | _, _ => str
  end.

(** Modelled from the spec: [utils.getFormatter] is not under src/.  Spec
    4.5 step 6: the module "reconstructs that exact interpolated string
    (using the same formatting rule the host applies)". *)
Definition getFormatter (runner : Runner) : Heap -> JSValue -> Bindings -> string :=
  _formatQuery (client runner).

(** What is recorded on a span as an exception. *)
Record OtelException := mkOtelException {
  exc_message : string;
  exc_source : JSValue
}.

(** Modelled from the spec: [utils.otelExceptionFromKnexError] is not under
    src/.  Spec 4.5 step 6: "Record the cleaned error as a span exception":
    the exception made from the error carries the cleaned message. *)
Definition otelExceptionFromKnexError (err : JSValue) (message : string) : OtelException :=
  mkOtelException message err.

(** The part of [@opentelemetry/api] and of the tracer that the module
    cannot see into: which span contexts are valid, and the span context
    the tracer gives the span it starts (numbered in order of creation). *)
Class Tracing := {
  isSpanContextValid : SpanContext -> bool;
  startedSpanContext : nat -> JSValue -> SpanContext
}.

(** [api.trace.getSpan(context)] *)
Definition getSpan (context : JSValue) : option Span :=
  match context with
  | VContext c => ctx_span c
  | _ => None
  end.

(** [api.trace.setSpan(context, span)] *)
Definition setSpan (context : Context) (span : Span) : Context :=
  mkContext (Some span) (ctx_rest context).

Inductive SpanKind := INTERNAL | SERVER | CLIENT | PRODUCER | CONSUMER.
Inductive SpanStatusCode := UNSET | OK | ERROR.

(** ** The call log *)

(** One entry per call to a collaborator. *)
Inductive Call :=
| CallExtractTableName (b : loc)
| CallMapSystem (knexSystem : JSValue)
| CallLimitLength (str maxLength : JSValue)
| CallGetName (db operation table : JSValue)
| CallStartSpan (name : JSValue) (kind : SpanKind) (attributes : gmap string JSValue)
    (parent : JSValue)
| CallOriginal (ambient : Context) (self : Runner) (args : list JSValue)
| CallRecordException (span : nat) (exc : OtelException)
| CallSetStatus (span : nat) (code : SpanStatusCode) (message : string)
| CallEnd (span : nat).

Definition is_start (c : Call) : bool :=
  match c with CallStartSpan _ _ _ _ => true | _ => false end.

Definition is_end_of (span : nat) (c : Call) : bool :=
  match c with CallEnd s => Nat.eqb s span | _ => false end.

(** The calls that compute attributes of a span. *)
Definition is_attribute_computation (c : Call) : bool :=
  match c with
  | CallExtractTableName _ | CallMapSystem _ | CallLimitLength _ _ => true
  | _ => false
  end.

(** Spans started so far; the next span gets this number. *)
Definition started (log : list Call) : nat := length (List.filter is_start log).

Definition ends_of (span : nat) (log : list Call) : nat :=
  length (List.filter (is_end_of span) log).

(** ** The context store *)

(** [Symbol('opentelemetry.instrumentation-knex.context')]: the one symbol
    the module creates. *)
Definition contextSymbol : PropKey := KSymbol 0.

(** [storeContext(original)]: the inner [wrapped_logging_method] of the
    builder factories, called under the ambient context [ambient]. *)
Definition storeContext (original : Factory) : Factory :=
  fun ambient self args h =>
    match original ambient self args h with
    | (Throw e, h1) => (Throw e, h1)
    | (Normal b, h1) =>
        match defineProperty h1 b contextSymbol (VContext ambient) with
        | Normal h2 => (Normal b, h2)
        | Throw e => (Throw e, h1)
        end
    end.

(** ** The query span manager *)

(** Attribute keys of [@opentelemetry/semantic-conventions]. *)
Definition SEMATTRS_DB_SYSTEM := "db.system".
Definition SEMATTRS_DB_SQL_TABLE := "db.sql.table".
Definition SEMATTRS_DB_OPERATION := "db.operation".
Definition SEMATTRS_DB_USER := "db.user".
Definition SEMATTRS_DB_NAME := "db.name".
Definition SEMATTRS_NET_PEER_NAME := "net.peer.name".
Definition SEMATTRS_NET_PEER_PORT := "net.peer.port".
Definition SEMATTRS_NET_TRANSPORT := "net.transport".
Definition SEMATTRS_DB_STATEMENT := "db.statement".

(** The object literal [attributes] of the wrapper: every key of the
    literal is an own property of the object, whatever its value. *)
Definition attributes_literal `{Utils} (moduleVersion : JSValue) (cfg : KnexConfig)
  (table operation name : JSValue) : gmap string JSValue :=
  <[SEMATTRS_NET_TRANSPORT :=
      if strict_eq (connection_field filename cfg) (VString ":memory:")
      then VString "inproc" else VUndefined]>
  (<[SEMATTRS_NET_PEER_PORT := connection_field port cfg]>
  (<[SEMATTRS_NET_PEER_NAME := connection_field host cfg]>
  (<[SEMATTRS_DB_NAME := name]>
  (<[SEMATTRS_DB_USER := connection_field user cfg]>
  (<[SEMATTRS_DB_OPERATION := operation]>
  (<[SEMATTRS_DB_SQL_TABLE := table]>
  (<[SEMATTRS_DB_SYSTEM := mapSystem (config_client cfg)]>
  (<["knex.version" := moduleVersion]> ∅)))))))).

(** The literal, then the assignment under [if (maxQueryLength)]. *)
Definition attributes_of `{Utils} (moduleVersion : JSValue) (cfg : KnexConfig)
  (table operation name maxQueryLength sql : JSValue) : gmap string JSValue :=
  let attributes := attributes_literal moduleVersion cfg table operation name in
  if truthy maxQueryLength
  then <[SEMATTRS_DB_STATEMENT := limitLength sql maxQueryLength]> attributes
  else attributes.

(** The calls made while the attributes are built, in program order. *)
Definition attribute_calls (self : Runner) (maxQueryLength sql : JSValue) : list Call :=
  [CallExtractTableName (builder self); CallMapSystem (config_client (config (client self)))]
  ++ (if truthy maxQueryLength then [CallLimitLength sql maxQueryLength] else []).

(** [parentSpan && api.trace.isSpanContextValid(parentSpan.spanContext())] *)
Definition hasActiveParent `{Tracing} (parentContext : JSValue) : bool :=
  match getSpan parentContext with
  | Some parentSpan => isSpanContextValid (spanContext parentSpan)
  | None => false
  end.

(** The handler given to [.catch]: what it throws, and the log after it. *)
Definition on_rejected (self : Runner) (query : JSValue) (span : nat) (err : JSValue)
  (h : Heap) (log : list Call) : Exception * list Call :=
  let formatter := getFormatter self in
  match get h query (KString "sql") with
  | Throw e => (e, log)
  | Normal sql =>
      match get h query (KString "bindings") with
      | Throw e => (e, log)
      | Normal bindings =>
          let fullQuery :=
            formatter h sql (if truthy bindings then GivenBindings bindings else EmptyArray) in
          match get h err (KString "message") with
          | Throw e => (e, log)
          | Normal (VString m) =>
              let message := replace_first (fullQuery +:+ " - ") m in
              let exc := otelExceptionFromKnexError err message in
              (Raised err,
               log ++ [CallRecordException span exc; CallSetStatus span ERROR message;
                       CallEnd span])
          | Normal _ => (TypeError "err.message.replace is not a function", log)
          end
      end
  end.

(** [createQueryWrapper(moduleVersion)(original)]: the inner
    [wrapped_logging_method], called under the ambient context [ambient]
    on the runner [self] with the arguments [args]; [query] is the first
    of them.  The result is how the returned promise settles, the heap,
    and the log. *)
Definition createQueryWrapper `{Utils} `{Tracing} (instrumentation : KnexInstrumentation)
  (moduleVersion : JSValue) (original : HostQuery)
  (ambient : Context) (self : Runner) (args : list JSValue) (h : Heap) (log : list Call)
  : Settlement * Heap * list Call :=
  let query := nth 0 args VUndefined in
  let cfg := config (client self) in
  let table := extractTableName h (builder self) in
  let operation := get_opt h query (KString "method") in
  let name := js_or (connection_field filename cfg) (connection_field database cfg) in
  let maxQueryLength := option_of (getConfig instrumentation) "maxQueryLength" in
  let sql := get_opt h query (KString "sql") in
  let attributes := attributes_of moduleVersion cfg table operation name maxQueryLength sql in
  let log := log ++ attribute_calls self maxQueryLength sql in
  let parentContext := js_or (get_own h (builder self) contextSymbol) (VContext ambient) in
  if truthy (option_of (_config instrumentation) "requireParentSpan")
     && negb (hasActiveParent parentContext)
  then
    let '(r, h') := original ambient self args h in
    (unchanged r, h', log ++ [CallOriginal ambient self args])
  else
    let spanName := getName name operation table in
    let span := mkSpan (started log) (startedSpanContext (started log) parentContext) in
    let log := log ++ [CallGetName name operation table;
                       CallStartSpan spanName CLIENT attributes parentContext] in
    let spanContext := setSpan ambient span in
    let '(r, h') := original spanContext self args h in
    let log := log ++ [CallOriginal spanContext self args] in
    match r with
    | Resolves result => (Fulfilled result, h', log ++ [CallEnd (span_handle span)])
    | Rejects err =>
        let '(e, log) := on_rejected self query (span_handle span) err h' log in
        (Rejected e, h', log)
    end.

(** What the spans started in a log were started with. *)
Definition started_attributes (log : list Call) : list (gmap string JSValue) :=
  flat_map (fun c => match c with CallStartSpan _ _ a _ => [a] | _ => [] end) log.

Definition started_parents (log : list Call) : list JSValue :=
  flat_map (fun c => match c with CallStartSpan _ _ _ p => [p] | _ => [] end) log.

Definition originals (log : list Call) : list (Context * Runner * list JSValue) :=
  flat_map (fun c => match c with CallOriginal a s args => [(a, s, args)] | _ => [] end) log.

Definition recorded_exceptions (span : nat) (log : list Call) : list OtelException :=
  flat_map (fun c => match c with
                     | CallRecordException s e => if Nat.eqb s span then [e] else []
                     | _ => []
                     end) log.

Definition recorded_statuses (span : nat) (log : list Call)
  : list (SpanStatusCode * string) :=
  flat_map (fun c => match c with
                     | CallSetStatus s code m => if Nat.eqb s span then [(code, m)] else []
                     | _ => []
                     end) log.

(** The parts of one execution of the wrapper, by the names they have in
    the source. *)
Definition query_of (args : list JSValue) : JSValue := nth 0 args VUndefined.

Definition parentContext_of (ambient : Context) (self : Runner) (h : Heap) : JSValue :=
  js_or (get_own h (builder self) contextSymbol) (VContext ambient).

Definition name_of (self : Runner) : JSValue :=
  js_or (connection_field filename (config (client self)))
        (connection_field database (config (client self))).

Definition maxQueryLength_of (instrumentation : KnexInstrumentation) : JSValue :=
  option_of (getConfig instrumentation) "maxQueryLength".

Definition span_attributes `{Utils} (instrumentation : KnexInstrumentation)
  (moduleVersion : JSValue) (self : Runner) (args : list JSValue) (h : Heap)
  : gmap string JSValue :=
  attributes_of moduleVersion (config (client self))
    (extractTableName h (builder self))
    (get_opt h (query_of args) (KString "method"))
    (name_of self)
    (maxQueryLength_of instrumentation)
    (get_opt h (query_of args) (KString "sql")).

Definition span_name `{Utils} (self : Runner) (args : list JSValue) (h : Heap) : JSValue :=
  getName (name_of self) (get_opt h (query_of args) (KString "method"))
    (extractTableName h (builder self)).

(** The span the tracer hands out after [log]. *)
Definition new_span `{Tracing} (log : list Call) (parentContext : JSValue) : Span :=
  mkSpan (started log) (startedSpanContext (started log) parentContext).

(** The first decision of the wrapper: no span when a parent is required
    and the resolved context has no valid one. *)
Definition bypasses `{Tracing} (instrumentation : KnexInstrumentation) (ambient : Context)
  (self : Runner) (h : Heap) : bool :=
  truthy (option_of (_config instrumentation) "requireParentSpan")
  && negb (hasActiveParent (parentContext_of ambient self h)).

(** The calls up to and including the start of the span. *)
Definition traced_prefix `{Utils} (instrumentation : KnexInstrumentation)
  (moduleVersion : JSValue) (ambient : Context) (self : Runner) (args : list JSValue)
  (h : Heap) : list Call :=
  attribute_calls self (maxQueryLength_of instrumentation)
    (get_opt h (query_of args) (KString "sql"))
  ++ [CallGetName (name_of self) (get_opt h (query_of args) (KString "method"))
        (extractTableName h (builder self));
      CallStartSpan (span_name self args h) CLIENT
        (span_attributes instrumentation moduleVersion self args h)
        (parentContext_of ambient self h)].

(** The context the original runs under when a span was started. *)
Definition traced_ambient `{Tracing} (ambient : Context) (self : Runner) (h : Heap)
  (log : list Call) : Context :=
  setSpan ambient (new_span log (parentContext_of ambient self h)).

(** The statement with its bindings interpolated, as the handler of a
    rejection rebuilds it, and the message without it. *)
Definition fullQuery_of (self : Runner) (query : JSValue) (h : Heap) : string :=
  getFormatter self h (get_opt h query (KString "sql"))
    (if truthy (get_opt h query (KString "bindings"))
     then GivenBindings (get_opt h query (KString "bindings")) else EmptyArray).

Definition cleaned_message (self : Runner) (query : JSValue) (h : Heap) (m : string)
  : string :=
  replace_first (fullQuery_of self query h +:+ " - ") m.

Definition nullish (v : JSValue) : bool :=
  match v with
  | VUndefined | VNull => true
  | _ => false
  end.

(** ** Sample objects *)

Module Sample.

Definition utils : Utils := {|
  extractTableName := fun h b => get_own h b (KString "table");
  mapSystem := fun knexSystem =>
    if strict_eq knexSystem (VString "sqlite3") then VString "sqlite" else knexSystem;
  getName := fun db operation table => if truthy operation then operation else db
|}.

Definition INVALID_TRACEID := "00000000000000000000000000000000".
Definition INVALID_SPANID := "0000000000000000".

Definition tracing : Tracing := {|
  isSpanContextValid := fun sc =>
    negb (String.eqb (traceId sc) INVALID_TRACEID)
    && negb (String.eqb (spanId sc) INVALID_SPANID);
  startedSpanContext := fun n parent =>
    mkSpanContext
      (match getSpan parent with
       | Some p => traceId (spanContext p)
       | None => "0af7651916cd43dd8448eb211c80319c"
       end)
      "b7ad6b7169203331"
|}.

(** Two ambient contexts: one without a span, one with a valid span. *)
Definition ROOT_CONTEXT : Context := mkContext None 0.
Definition parent_span : Span :=
  mkSpan 40 (mkSpanContext "4bf92f3577b34da6a3ce929d0e0e4736" "00f067aa0ba902b7").
Definition request_context : Context := mkContext (Some parent_span) 1.

Definition format_plain (h : Heap) (sql : JSValue) (b : Bindings) : string :=
  match sql with
  | VString s => s
  | _ => "undefined"
  end.

Definition sqlite_config (file : string) : KnexConfig :=
  mkKnexConfig (VString "sqlite3")
    (Some (mkConnection (VString file) VUndefined VUndefined VUndefined VUndefined)).

Definition runner_at (file : string) (b : loc) : Runner :=
  mkRunner (mkClient (sqlite_config file) format_plain) b.

Definition runner (file : string) : Runner := runner_at file 1%nat.

Definition empty_object : Obj := mkObj ∅ true.

Definition data (v : JSValue) : Property := mkProperty v true true true.

(** The query descriptor and the error the host raises for it. *)
Definition query_object : Obj :=
  mkObj (<[KString "method" := data (VString "select")]>
         (<[KString "sql" := data (VString "select * from users")]> ∅)) true.

Definition error_object : Obj :=
  mkObj (<[KString "message" :=
             data (VString "select * from users - SQLITE_ERROR: no such table: users")]> ∅)
        true.

(** A builder at address 1, a query descriptor at 2, an error at 3. *)
Definition heap : Heap :=
  <[3%nat := error_object]> (<[2%nat := query_object]> (<[1%nat := empty_object]> ∅)).

Definition host_resolves (v : JSValue) : HostQuery := fun _ _ _ h => (Resolves v, h).
Definition host_rejects (err : JSValue) : HostQuery := fun _ _ _ h => (Rejects err, h).

(** A builder factory that makes a new object at the given address, and
    one that throws. *)
Definition factory_new (l : loc) : Factory :=
  fun _ _ _ h => (Normal (VObject l), <[l := empty_object]> h).
Definition factory_throws (e : JSValue) : Factory :=
  fun _ _ _ h => (Throw (Raised e), h).

Definition config_of (maxQueryLength requireParentSpan : JSValue) : gmap string JSValue :=
  <["requireParentSpan" := requireParentSpan]> (<["maxQueryLength" := maxQueryLength]> ∅).

Definition undefined_maxQueryLength : gmap string JSValue :=
  <["maxQueryLength" := VUndefined]> ∅.

Definition prototype : gmap string (Method string string) :=
  <["query" := HostMethod "Runner.prototype.query"]> ∅.

(** One execution on the sample heap, from an empty log. *)
Definition execute (options : option (gmap string JSValue)) (original : HostQuery)
  (ambient : Context) (self : Runner) (args : list JSValue)
  : Settlement * Heap * list Call :=
  @createQueryWrapper utils tracing (new_KnexInstrumentation options) (VString "3.1.0")
    original ambient self args heap [].

End Sample.

(** ** The module hooks *)

(** The two wrapper factories the hooks hand to [ensureWrapped]:
    [this.createQueryWrapper(moduleVersion)] and
    [this.storeContext.bind(this)]. *)
Inductive KnexWrapper :=
| QueryWrapper (moduleVersion : JSValue)
| StoreContextWrapper.

(** An [InstrumentationNodeModuleFile]: the file it hooks, its patch and
    its unpatch.  Both act on the prototype of the class the file exports
    and receive the version of the loaded module. *)
Record InstrumentationNodeModuleFile (F : Type) := mkModuleFile {
  file_name : string;
  file_patch : gmap string (Method F KnexWrapper) -> JSValue
               -> option (gmap string (Method F KnexWrapper));
  file_unpatch : gmap string (Method F KnexWrapper) -> JSValue
                 -> gmap string (Method F KnexWrapper)
}.
Arguments mkModuleFile {F} _ _ _.
Arguments file_name {F} _.
Arguments file_patch {F} _ _ _.
Arguments file_unpatch {F} _ _ _.

(** [getRunnerNodeModuleFileInstrumentation(basePath)] *)
Definition getRunnerNodeModuleFileInstrumentation (basePath : string)
  : InstrumentationNodeModuleFile HostQuery :=
  mkModuleFile ("knex/" +:+ basePath +:+ "/runner.js")
    (fun prototype moduleVersion => patch_runner prototype (QueryWrapper moduleVersion))
    (fun prototype _ => unpatch_runner prototype).

(** [getClientNodeModuleFileInstrumentation(basePath)] *)
Definition getClientNodeModuleFileInstrumentation (basePath : string)
  : InstrumentationNodeModuleFile Factory :=
  mkModuleFile ("knex/" +:+ basePath +:+ "/client.js")
    (fun prototype _ =>
       patch_client prototype StoreContextWrapper StoreContextWrapper StoreContextWrapper)
    (fun prototype _ => unpatch_client prototype).

(** [init()]: the files pushed onto the module definition, in order. *)
Definition init
  : list (InstrumentationNodeModuleFile Factory + InstrumentationNodeModuleFile HostQuery) :=
  [inl (getClientNodeModuleFileInstrumentation "src");
   inl (getClientNodeModuleFileInstrumentation "lib");
   inr (getRunnerNodeModuleFileInstrumentation "src");
   inr (getRunnerNodeModuleFileInstrumentation "lib");
   inr (getRunnerNodeModuleFileInstrumentation "lib/execution")].

Definition hooked_file
  (file : InstrumentationNodeModuleFile Factory + InstrumentationNodeModuleFile HostQuery)
  : string :=
  match file with
  | inl client_file => file_name client_file
  | inr runner_file => file_name runner_file
  end.

(** The patch of a file run once per element of a list of module versions,
    as enabling the instrumentation again and again does. *)
Fixpoint patch_each {F : Type} (file : InstrumentationNodeModuleFile F)
  (prototype : gmap string (Method F KnexWrapper)) (moduleVersions : list JSValue)
  : option (gmap string (Method F KnexWrapper)) :=
  match moduleVersions with
  | [] => Some prototype
  | v :: vs => patched ← file_patch file prototype v; patch_each file patched vs
  end.

(** What a call of a method of [Runner.prototype] does: the host's method
    runs as it is; the function [_wrap] installed for
    [createQueryWrapper(moduleVersion)] over a method of the host is that
    wrapper applied to it.  Other shapes are not given a meaning. *)
Definition query_behaviour `{Utils} `{Tracing} (instrumentation : KnexInstrumentation)
  (m : Method HostQuery KnexWrapper)
  : option (Context -> Runner -> list JSValue -> Heap -> list Call
            -> Settlement * Heap * list Call) :=
  match m with
  | HostMethod original =>
      Some (fun ambient self args h log =>
              let '(r, h') := original ambient self args h in
              (unchanged r, h', log ++ [CallOriginal ambient self args]))
  | Wrapped (QueryWrapper moduleVersion) (HostMethod original) =>
      Some (createQueryWrapper instrumentation moduleVersion original)
  | _ => None
  end.

(** What a call of a builder factory of [Client.prototype] does: the
    function [_wrap] installed for [storeContext] is [storeContext] applied
    to what its original does. *)
Fixpoint factory_behaviour (m : Method Factory KnexWrapper) : option Factory :=
  match m with
  | HostMethod original => Some original
  | Wrapped StoreContextWrapper original => storeContext <$> factory_behaviour original
  | Wrapped (QueryWrapper _) _ => None
  end.

(** The pattern is somewhere in the string. *)
Definition occurs (pattern s : string) : Prop :=
  exists pre post, s = pre +:+ pattern +:+ post.

(** ** More sample objects *)

Module Scenario.

(** A builder at address 7 that carries the context of a request. *)
Definition captured_builder : Obj :=
  mkObj (<[contextSymbol := mkProperty (VContext Sample.request_context) false false false]> ∅)
        true.

Definition heap : Heap := <[7%nat := captured_builder]> Sample.heap.

(** A builder at address 8 that cannot take new properties. *)
Definition sealed_heap : Heap := <[8%nat := mkObj ∅ false]> Sample.heap.

Definition factory_returns (v : JSValue) : Factory := fun _ _ _ h => (Normal v, h).

Definition runner_prototype : gmap string (Method HostQuery KnexWrapper) :=
  <["ensureConnection" := HostMethod (Sample.host_resolves VUndefined)]>
    (<["query" := HostMethod (Sample.host_resolves (VNumber 1))]> ∅).

Definition client_prototype : gmap string (Method Factory KnexWrapper) :=
  <["raw" := HostMethod (Sample.factory_new 13%nat)]>
    (<["schemaBuilder" := HostMethod (Sample.factory_new 12%nat)]>
       (<["queryBuilder" := HostMethod (Sample.factory_new 11%nat)]> ∅)).

(** A builder at address 9 that was made outside of any span. *)
Definition heap_with_root_builder : Heap :=
  <[9%nat := mkObj (<[contextSymbol := mkProperty (VContext Sample.ROOT_CONTEXT)
                                         false false false]> ∅) true]> Sample.heap.

End Scenario.

(** * Properties *)

(** ** Values *)

(** Against a string, [===] is equality of values. *)
Lemma strict_eq_string (a : JSValue) (s : string) :
  strict_eq a (VString s) = bool_decide (a = VString s).
Proof.
  destruct a; reflexivity.
Qed.

(** A value is truthy exactly when it is none of [undefined], [null],
    [false], [0], [NaN] and the empty string. *)
Lemma truthy_falsy_values (v : JSValue) :
  truthy v = true <-> v ∉ falsy_values.
Proof.
  unfold falsy_values. rewrite !not_elem_of_cons.
  destruct v as [| | b | n | | s | c | l]; simpl.
  - split; [discriminate | intros (Hne & _); congruence].
  - split; [discriminate | intros (_ & Hne & _); congruence].
  - destruct b.
    + split; [intros _; repeat split; try discriminate; apply not_elem_of_nil | auto].
    + split; [discriminate | intros (_ & _ & Hne & _); congruence].
  - rewrite negb_true_iff, Z.eqb_neq. split.
    + intros Hn. repeat split; try discriminate; [congruence | apply not_elem_of_nil].
    + intros (_ & _ & _ & Hne & _) ->. congruence.
  - split; [discriminate | intros (_ & _ & _ & _ & Hne & _); congruence].
  - rewrite negb_true_iff, String.eqb_neq. split.
    + intros Hs. repeat split; try discriminate; [congruence | apply not_elem_of_nil].
    + intros (_ & _ & _ & _ & _ & Hne & _) ->. congruence.
  - split; [intros _; repeat split; try discriminate; apply not_elem_of_nil | auto].
  - split; [intros _; repeat split; try discriminate; apply not_elem_of_nil | auto].
Qed.

(** ** Configuration *)

Lemma spread_lookup (a b : gmap string JSValue) (k : string) :
  spread a b !! k = match b !! k with Some v => Some v | None => a !! k end.
Proof.
  unfold spread. rewrite lookup_union. destruct (b !! k), (a !! k); reflexivity.
Qed.

(** Merging twice is merging once: it makes no difference whether the base
    class stores the merged object directly or hands it to [setConfig]
    again. *)
Lemma spread_idempotent (a b : gmap string JSValue) :
  spread a (spread a b) = spread a b.
Proof.
  apply map_eq. intros k.
  rewrite (spread_lookup a (spread a b)), (spread_lookup a b).
  destruct (b !! k); [reflexivity |]. destruct (a !! k); reflexivity.
Qed.

Lemma DEFAULT_CONFIG_lookup (k : string) :
  In k recognized_options -> exists v, DEFAULT_CONFIG !! k = Some v /\ v <> VUndefined.
Proof.
  intros [<- | [<- | []]]; eexists; (split; [reflexivity | discriminate]).
Qed.

Lemma last_cons_default {A : Type} (l : list A) (x d : A) :
  List.last (x :: l) d = List.last l x.
Proof.
  revert x d. induction l as [| y l IH]; intros x d; [reflexivity |].
  change (List.last (x :: y :: l) d) with (List.last (y :: l) d).
  rewrite (IH y d), (IH y x). reflexivity.
Qed.

Lemma setConfig_sequence (c0 : option (gmap string JSValue))
  (cs : list (option (gmap string JSValue))) :
  getConfig (fold_left (fun self c => setConfig c self) cs (new_KnexInstrumentation c0))
  = spread DEFAULT_CONFIG (or_empty (List.last cs c0)).
Proof.
  revert c0. induction cs as [| c cs IH]; intros c0; [reflexivity |].
  simpl fold_left.
  change (setConfig c (new_KnexInstrumentation c0)) with (new_KnexInstrumentation c).
  rewrite IH, last_cons_default. reflexivity.
Qed.

(** C7, as amended.  The effective configuration after the constructor and
    any sequence of [setConfig] calls is the last options object spread
    over [{maxQueryLength: 1022, requireParentSpan: false}], whatever came
    before.  Every recognized option stays an own property of it, and its
    value is the caller's when the caller's object has the property (be it
    with the value [undefined]) and the default, which is defined,
    otherwise. *)
Theorem effective_config_is_last_over_defaults (c0 : option (gmap string JSValue))
  (cs : list (option (gmap string JSValue))) :
  let self := fold_left (fun self c => setConfig c self) cs (new_KnexInstrumentation c0) in
  let given := or_empty (List.last cs c0) in
  getConfig self = spread DEFAULT_CONFIG given
  /\ DEFAULT_CONFIG !! "maxQueryLength" = Some (VNumber 1022)
  /\ DEFAULT_CONFIG !! "requireParentSpan" = Some (VBool false)
  /\ Forall (fun k => is_Some (getConfig self !! k)) recognized_options
  /\ Forall (fun k => option_of (getConfig self) k
                      = match given !! k with
                        | Some v => v
                        | None => option_of DEFAULT_CONFIG k
                        end) recognized_options
  /\ Forall (fun k => option_of DEFAULT_CONFIG k <> VUndefined) recognized_options.
Proof.
  intros self given. subst self given. rewrite setConfig_sequence.
  split; [reflexivity |]. split; [reflexivity |]. split; [reflexivity |].
  split; [| split].
  - apply Forall_forall. intros k Hk. apply list_elem_of_In in Hk.
    rewrite spread_lookup.
    destruct (DEFAULT_CONFIG_lookup k Hk) as (v & -> & _).
    destruct (or_empty (List.last cs c0) !! k); eauto.
  - apply Forall_forall. intros k _. unfold option_of. rewrite spread_lookup.
    destruct (or_empty (List.last cs c0) !! k); reflexivity.
  - apply Forall_forall. intros k Hk. apply list_elem_of_In in Hk.
    destruct (DEFAULT_CONFIG_lookup k Hk) as (v & Hv & Hne).
    unfold option_of. rewrite Hv. exact Hne.
Qed.

(** C7, as stated, fails: reconfiguring with [{maxQueryLength: undefined}]
    leaves the recognized option [maxQueryLength] with the value
    [undefined]. *)
Lemma explicit_undefined_overrides_default :
  In "maxQueryLength" recognized_options
  /\ option_of (getConfig (setConfig (Some Sample.undefined_maxQueryLength)
                                     (new_KnexInstrumentation None)))
       "maxQueryLength" = VUndefined.
Proof. split; [left; reflexivity | reflexivity]. Qed.

(** ** The method interceptor *)

Section InterceptorFacts.
Context {F W : Type}.
Implicit Types (obj : gmap string (Method F W)) (m : Method F W) (w : W).

Lemma ensureWrapped_unfold obj methodName w m :
  obj !! methodName = Some m ->
  ensureWrapped obj methodName w = Some (<[methodName := Wrapped w (original_of m)]> obj).
Proof.
  intros Hm. unfold ensureWrapped, _unwrap, _wrap. rewrite Hm.
  destruct m as [f | w' original]; simpl.
  - rewrite Hm. reflexivity.
  - rewrite lookup_insert_eq. simpl. rewrite insert_insert_eq. reflexivity.
Qed.

Lemma _unwrap_wrapped obj methodName w m :
  obj !! methodName = Some m ->
  _unwrap (<[methodName := Wrapped w m]> obj) methodName = obj.
Proof.
  intros Hm. unfold _unwrap. rewrite lookup_insert_eq, insert_insert_eq.
  apply insert_id, Hm.
Qed.

Lemma ensureWrapped_all_from_wrapped obj methodName m w0 (ws : list W) :
  ensureWrapped_all (<[methodName := Wrapped w0 m]> obj) methodName ws
  = Some (<[methodName := Wrapped (List.last ws w0) m]> obj).
Proof.
  revert w0. induction ws as [| w ws IH]; intros w0; [reflexivity |].
  rewrite last_cons_default. simpl ensureWrapped_all.
  rewrite (ensureWrapped_unfold _ _ w (Wrapped w0 m)) by apply lookup_insert_eq.
  simpl. rewrite insert_insert_eq. apply IH.
Qed.

Lemma ensureWrapped_all_unfold obj methodName m (ws : list W) :
  obj !! methodName = Some m ->
  ensureWrapped_all obj methodName ws
  = Some (match ws with
          | [] => obj
          | w :: ws' => <[methodName := Wrapped (List.last ws' w) (original_of m)]> obj
          end).
Proof.
  intros Hm. destruct ws as [| w ws]; [reflexivity |].
  simpl ensureWrapped_all. rewrite (ensureWrapped_unfold _ _ w _ Hm). simpl.
  apply ensureWrapped_all_from_wrapped.
Qed.

Lemma _unwrap_unfold obj methodName m :
  obj !! methodName = Some m ->
  _unwrap obj methodName = <[methodName := original_of m]> obj.
Proof.
  intros Hm. unfold _unwrap. rewrite Hm. destruct m as [f | w original]; [| reflexivity].
  symmetry. apply insert_id, Hm.
Qed.

Lemma ensureWrapped_lookup obj methodName w m :
  obj !! methodName = Some m ->
  exists obj',
    ensureWrapped obj methodName w = Some obj'
    /\ obj' !! methodName = Some (Wrapped w (original_of m))
    /\ forall k, k <> methodName -> obj' !! k = obj !! k.
Proof.
  intros Hm. rewrite (ensureWrapped_unfold _ _ w m Hm). eexists. split; [reflexivity |].
  split; [apply lookup_insert_eq |]. intros k Hk. apply lookup_insert_ne. congruence.
Qed.

Lemma _unwrap_lookup obj methodName k :
  _unwrap obj methodName !! k
  = if decide (k = methodName) then original_of <$> obj !! methodName else obj !! k.
Proof.
  unfold _unwrap. destruct (decide (k = methodName)) as [-> | Hne].
  - destruct (obj !! methodName) as [[f | w original] |] eqn:Hm; simpl.
    + exact Hm.
    + apply lookup_insert_eq.
    + exact Hm.
  - destruct (obj !! methodName) as [[f | w original] |] eqn:Hm; simpl; try reflexivity.
    apply lookup_insert_ne. congruence.
Qed.

(** The client file patched twice and unpatched once: the three builder
    factories of the host are back. *)
Lemma client_patched_twice_unpatched_once obj f1 f2 f3 (a1 a2 a3 b1 b2 b3 : W) :
  obj !! "queryBuilder" = Some (HostMethod f1) ->
  obj !! "schemaBuilder" = Some (HostMethod f2) ->
  obj !! "raw" = Some (HostMethod f3) ->
  exists once twice,
    patch_client obj a1 a2 a3 = Some once
    /\ patch_client once b1 b2 b3 = Some twice
    /\ unpatch_client twice = obj.
Proof.
  intros H1 H2 H3. unfold patch_client.
  destruct (ensureWrapped_lookup obj "queryBuilder" a1 _ H1) as (p1 & -> & Hp1 & Ho1).
  simpl.
  destruct (ensureWrapped_lookup p1 "schemaBuilder" a2 (HostMethod f2))
    as (p2 & -> & Hp2 & Ho2).
  { rewrite Ho1 by discriminate. exact H2. }
  simpl.
  destruct (ensureWrapped_lookup p2 "raw" a3 (HostMethod f3)) as (p3 & -> & Hp3 & Ho3).
  { rewrite Ho2, Ho1 by discriminate. exact H3. }
  destruct (ensureWrapped_lookup p3 "queryBuilder" b1 (Wrapped a1 (HostMethod f1)))
    as (q1 & Hq1e & Hq1 & Hq1o).
  { rewrite Ho3, Ho2 by discriminate. exact Hp1. }
  destruct (ensureWrapped_lookup q1 "schemaBuilder" b2 (Wrapped a2 (HostMethod f2)))
    as (q2 & Hq2e & Hq2 & Hq2o).
  { rewrite Hq1o, Ho3 by discriminate. exact Hp2. }
  destruct (ensureWrapped_lookup q2 "raw" b3 (Wrapped a3 (HostMethod f3)))
    as (q3 & Hq3e & Hq3 & Hq3o).
  { rewrite Hq2o, Hq1o by discriminate. exact Hp3. }
  exists p3, q3. split; [reflexivity |]. split.
  { rewrite Hq1e. simpl. rewrite Hq2e. simpl. exact Hq3e. }
  apply map_eq. intros k. unfold unpatch_client.
  rewrite !_unwrap_lookup.
  repeat case_decide; subst; simpl in *; try discriminate.
  - rewrite Hq3. simpl. symmetry. exact H3.
  - rewrite Hq3o, Hq2 by discriminate. simpl. symmetry. exact H2.
  - rewrite Hq3o, Hq2o, Hq1 by discriminate. simpl. symmetry. exact H1.
  - rewrite Hq3o, Hq2o, Hq1o, Ho3, Ho2, Ho1 by assumption. reflexivity.
Qed.

End InterceptorFacts.

(** C8.  For every object and every method it has, [ensureWrapped] first
    restores the original when the current method carries the
    wrapped-marker, and then applies the new wrapper: the wrapper always
    ends up around the original of the current method.  Hence any number of
    [ensureWrapped] calls followed by a single [_unwrap] leave that
    original installed; started from a method without the marker, they
    leave the object exactly as it was, with no wrapper left over. *)
Theorem ensureWrapped_then_unwrap_restores {F W : Type}
  (obj : gmap string (Method F W)) (methodName : string) (m : Method F W) (ws : list W) :
  obj !! methodName = Some m ->
  (forall w : W,
     ensureWrapped obj methodName w
     = _wrap (if isWrapped (Some m) then _unwrap obj methodName else obj) methodName w
     /\ ensureWrapped obj methodName w
        = Some (<[methodName := Wrapped w (original_of m)]> obj))
  /\ exists obj',
       ensureWrapped_all obj methodName ws = Some obj'
       /\ obj' = match ws with
                 | [] => obj
                 | w :: ws' => <[methodName := Wrapped (List.last ws' w) (original_of m)]> obj
                 end
       /\ _unwrap obj' methodName = <[methodName := original_of m]> obj
       /\ _unwrap obj' methodName !! methodName = Some (original_of m)
       /\ (isWrapped (Some m) = false -> _unwrap obj' methodName = obj).
Proof.
  intros Hm. split.
  - intros w. split; [| apply (ensureWrapped_unfold _ _ w _ Hm)].
    unfold ensureWrapped. rewrite Hm. reflexivity.
  - rewrite (ensureWrapped_all_unfold _ _ m ws Hm).
    eexists. split; [reflexivity |]. split; [reflexivity |].
    assert (_unwrap (match ws with
                     | [] => obj
                     | w :: ws' =>
                         <[methodName := Wrapped (List.last ws' w) (original_of m)]> obj
                     end) methodName
            = <[methodName := original_of m]> obj) as ->.
    { destruct ws as [| w ws].
      - apply _unwrap_unfold, Hm.
      - rewrite (_unwrap_unfold _ _ (Wrapped (List.last ws w) (original_of m)))
          by apply lookup_insert_eq.
        apply insert_insert_eq. }
    split; [reflexivity |]. split; [apply lookup_insert_eq |].
    destruct m as [f | w0 original]; [| discriminate].
    intros _. apply insert_id, Hm.
Qed.

Lemma ensureWrapped_then_unwrap_restores_witness :
  exists obj',
    ensureWrapped_all Sample.prototype "query" ["first enable"; "second enable"] = Some obj'
    /\ _unwrap obj' "query" = Sample.prototype.
Proof.
  destruct (ensureWrapped_then_unwrap_restores Sample.prototype "query"
              (HostMethod "Runner.prototype.query") ["first enable"; "second enable"])
    as (_ & obj' & Hall & _ & _ & _ & Hrestored).
  - reflexivity.
  - exists obj'. split; [exact Hall | apply Hrestored; reflexivity].
Defined.

(** ** The context store *)

Lemma defineProperty_new (h : Heap) (l : loc) (o : Obj) (k : PropKey) (v : JSValue) :
  h !! l = Some o -> o_props o !! k = None -> o_extensible o = true ->
  defineProperty h (VObject l) k v
  = Normal (<[l := mkObj (<[k := mkProperty v false false false]> (o_props o)) true]> h).
Proof.
  intros Hl Hk Hext. unfold defineProperty. rewrite Hl, Hk, Hext. reflexivity.
Qed.

(** Whenever [defineProperty] succeeds, nothing but the one property of the
    one object can have changed. *)
Lemma defineProperty_frame (h h2 : Heap) (target : JSValue) (k : PropKey) (v : JSValue) :
  defineProperty h target k v = Normal h2 ->
  (forall l k', target <> VObject l \/ k' <> k -> own_property h2 l k' = own_property h l k')
  /\ (forall l, o_extensible <$> h2 !! l = o_extensible <$> h !! l)
  /\ dom h2 = dom h.
Proof.
  unfold defineProperty. intros Hdef.
  destruct target as [| | | | | | | l0]; try discriminate.
  destruct (h !! l0) as [o |] eqn:Hl0; [| discriminate].
  assert (forall ps : gmap PropKey Property,
            (forall k', k' <> k -> ps !! k' = o_props o !! k') ->
            (forall l k', VObject l0 <> VObject l \/ k' <> k ->
               own_property (<[l0 := mkObj ps (o_extensible o)]> h) l k' = own_property h l k')
            /\ (forall l, o_extensible <$> <[l0 := mkObj ps (o_extensible o)]> h !! l
                          = o_extensible <$> h !! l)
            /\ dom (<[l0 := mkObj ps (o_extensible o)]> h) = dom h) as Hupd.
  { intros ps Hps. split; [| split].
    - intros l k' Hne. unfold own_property.
      destruct (decide (l0 = l)) as [<- | Hl].
      + rewrite lookup_insert_eq, Hl0. simpl. apply Hps.
        destruct Hne as [Hne | Hne]; [congruence | exact Hne].
      + rewrite lookup_insert_ne by exact Hl. reflexivity.
    - intros l. destruct (decide (l0 = l)) as [<- | Hl].
      + rewrite lookup_insert_eq, Hl0. reflexivity.
      + rewrite lookup_insert_ne by exact Hl. reflexivity.
    - apply set_eq. intros l. rewrite dom_insert, elem_of_union, elem_of_singleton.
      split; [intros [-> | Hin]; [apply elem_of_dom; eauto | exact Hin] | auto]. }
  destruct (o_props o !! k) as [p |] eqn:Hk.
  - destruct (p_configurable p || p_writable p).
    + injection Hdef as <-. apply Hupd. intros k' Hne.
      apply lookup_insert_ne. congruence.
    + destruct (bool_decide (p_value p = v)); [| discriminate].
      injection Hdef as <-. repeat split; reflexivity.
  - destruct (o_extensible o) eqn:Hext; [| discriminate].
    injection Hdef as <-. apply Hupd. intros k' Hne.
    apply lookup_insert_ne. congruence.
Qed.

Lemma storeContext_cases (original : Factory) (ambient : Context) (self : JSValue)
  (args : list JSValue) (h : Heap) :
  storeContext original ambient self args h
  = match original ambient self args h with
    | (Throw e, h1) => (Throw e, h1)
    | (Normal b, h1) =>
        match defineProperty h1 b contextSymbol (VContext ambient) with
        | Normal h2 => (Normal b, h2)
        | Throw e => (Throw e, h1)
        end
    end.
Proof. reflexivity. Qed.

(** A property that is neither writable nor configurable resists
    assignment, redefinition with another value and deletion, and is not
    enumerated. *)
Lemma locked_property (h : Heap) (l : loc) (k : PropKey) (v : JSValue) :
  own_property h l k = Some (mkProperty v false false false) ->
  (forall v', exists e, assign h l k v' = Throw e)
  /\ (forall v', v' <> v -> exists e, defineProperty h (VObject l) k v' = Throw e)
  /\ (exists e, delete_property h l k = Throw e)
  /\ k ∉ enumerable_keys h l.
Proof.
  unfold own_property. intros Hp.
  destruct (h !! l) as [o |] eqn:Hl; [| discriminate]. simpl in Hp.
  split; [| split; [| split]].
  - intros v'. unfold assign. rewrite Hl, Hp. simpl. eauto.
  - intros v' Hne. unfold defineProperty. rewrite Hl, Hp. simpl.
    rewrite bool_decide_eq_false_2 by congruence. eauto.
  - unfold delete_property. rewrite Hl, Hp. simpl. eauto.
  - unfold enumerable_keys. rewrite Hl. intros Hin.
    apply elem_of_dom in Hin as [p Hin].
    apply map_lookup_filter_Some in Hin as [Hin Hen]. simpl in Hen.
    rewrite Hp in Hin. injection Hin as <-. discriminate.
Qed.

(** ** Strings *)

Lemma replace_first_unfold (pattern s : string) :
  replace_first pattern s
  = if String.prefix pattern s then string_drop (String.length pattern) s
    else match s with
         | EmptyString => EmptyString
         | String c s' => String c (replace_first pattern s')
         end.
Proof. destruct s; reflexivity. Qed.

Lemma prefix_append (p rest : string) : String.prefix p (p +:+ rest) = true.
Proof.
  induction p as [| a p IH]; simpl.
  - destruct rest; reflexivity.
  - destruct (Ascii.ascii_dec a a) as [_ | Hne]; [exact IH | contradiction].
Qed.

Lemma string_drop_append (p rest : string) :
  string_drop (String.length p) (p +:+ rest) = rest.
Proof. induction p as [| a p IH]; [reflexivity | exact IH]. Qed.

(** A message that starts with the pattern loses exactly that prefix. *)
Lemma replace_first_prefix (p rest : string) : replace_first p (p +:+ rest) = rest.
Proof.
  rewrite replace_first_unfold, prefix_append. apply string_drop_append.
Qed.

Lemma substring_length_le (n : nat) (s : string) :
  (String.length (String.substring 0 n s) <= n)%nat.
Proof.
  revert s. induction n as [| n IH]; intros [| c s]; simpl; try lia.
  specialize (IH s). lia.
Qed.

Lemma substring_prefix (n : nat) (s : string) :
  String.prefix (String.substring 0 n s) s = true.
Proof.
  revert s. induction n as [| n IH]; intros [| c s]; simpl; try reflexivity.
  destruct (Ascii.ascii_dec c c) as [_ | Hne]; [apply IH | contradiction].
Qed.

Lemma substring_all (n : nat) (s : string) :
  (String.length s <= n)%nat -> String.substring 0 n s = s.
Proof.
  revert s. induction n as [| n IH]; intros [| c s]; simpl; intros Hle;
    try reflexivity; try lia.
  rewrite IH by lia. reflexivity.
Qed.

(** ** The query wrapper *)

Lemma started_app (l1 l2 : list Call) : started (l1 ++ l2) = (started l1 + started l2)%nat.
Proof. unfold started. rewrite List.filter_app, length_app. reflexivity. Qed.

Lemma ends_of_app (span : nat) (l1 l2 : list Call) :
  ends_of span (l1 ++ l2) = (ends_of span l1 + ends_of span l2)%nat.
Proof. unfold ends_of. rewrite List.filter_app, length_app. reflexivity. Qed.

Lemma started_attribute_calls (self : Runner) (maxQueryLength sql : JSValue) :
  started (attribute_calls self maxQueryLength sql) = 0%nat.
Proof. unfold attribute_calls. destruct (truthy maxQueryLength); reflexivity. Qed.

Lemma settle_rejection (X : Exception * list Call) (h' : Heap) :
  (let '(e, l) := X in (Rejected e, h', l)) = (Rejected X.1, h', X.2).
Proof. destruct X; reflexivity. Qed.

Section QueryWrapperFacts.
Context `{Utils} `{Tracing}.
Variables (instrumentation : KnexInstrumentation) (moduleVersion : JSValue).
Variables (original : HostQuery) (ambient : Context) (self : Runner).
Variables (args : list JSValue) (h : Heap) (log : list Call).

Lemma createQueryWrapper_bypass :
  bypasses instrumentation ambient self h = true ->
  createQueryWrapper instrumentation moduleVersion original ambient self args h log
  = (unchanged (original ambient self args h).1,
     (original ambient self args h).2,
     log ++ attribute_calls self (maxQueryLength_of instrumentation)
              (get_opt h (query_of args) (KString "sql"))
         ++ [CallOriginal ambient self args]).
Proof.
  unfold bypasses, parentContext_of, createQueryWrapper. intros ->.
  destruct (original ambient self args h) as [r h']. simpl.
  rewrite <- app_assoc. reflexivity.
Qed.

Lemma createQueryWrapper_resolves (result : JSValue) (h' : Heap) :
  bypasses instrumentation ambient self h = false ->
  original (traced_ambient ambient self h log) self args h = (Resolves result, h') ->
  createQueryWrapper instrumentation moduleVersion original ambient self args h log
  = (Fulfilled result, h',
     log ++ traced_prefix instrumentation moduleVersion ambient self args h
         ++ [CallOriginal (traced_ambient ambient self h log) self args;
             CallEnd (started log)]).
Proof.
  unfold bypasses, parentContext_of, traced_ambient, new_span, parentContext_of,
    createQueryWrapper.
  intros -> Horig.
  rewrite started_app, started_attribute_calls, Nat.add_0_r.
  fold (maxQueryLength_of instrumentation).
  rewrite Horig. simpl. unfold traced_prefix.
  rewrite <- !app_assoc. reflexivity.
Qed.

Lemma createQueryWrapper_rejects (err : JSValue) (h' : Heap) :
  bypasses instrumentation ambient self h = false ->
  original (traced_ambient ambient self h log) self args h = (Rejects err, h') ->
  createQueryWrapper instrumentation moduleVersion original ambient self args h log
  = (Rejected (on_rejected self (query_of args) (started log) err h'
                 (log ++ traced_prefix instrumentation moduleVersion ambient self args h
                      ++ [CallOriginal (traced_ambient ambient self h log) self args])).1,
     h',
     (on_rejected self (query_of args) (started log) err h'
        (log ++ traced_prefix instrumentation moduleVersion ambient self args h
             ++ [CallOriginal (traced_ambient ambient self h log) self args])).2).
Proof.
  unfold bypasses, parentContext_of, traced_ambient, new_span, parentContext_of,
    createQueryWrapper.
  intros -> Horig.
  rewrite started_app, started_attribute_calls, Nat.add_0_r.
  fold (maxQueryLength_of instrumentation).
  rewrite Horig. cbv beta iota zeta. unfold traced_prefix.
  rewrite <- !app_assoc. apply settle_rejection.
Qed.

End QueryWrapperFacts.

(** ** The handler of a rejection *)

Lemma get_not_nullish (h : Heap) (v : JSValue) (k : PropKey) :
  nullish v = false -> get h v k = Normal (get_opt h v k).
Proof. destruct v; simpl; intros Hn; try reflexivity; discriminate. Qed.

Lemma on_rejected_nullish (self : Runner) (query : JSValue) (span : nat) (err : JSValue)
  (h : Heap) (log : list Call) :
  nullish query = true ->
  on_rejected self query span err h log
  = (TypeError "Cannot read properties of undefined or null", log).
Proof. destruct query; simpl; intros Hn; try discriminate; reflexivity. Qed.

Lemma on_rejected_handled (self : Runner) (query : JSValue) (span : nat) (err : JSValue)
  (h : Heap) (log : list Call) (m : string) :
  nullish query = false ->
  get h err (KString "message") = Normal (VString m) ->
  on_rejected self query span err h log
  = (Raised err,
     log ++ [CallRecordException span
               (otelExceptionFromKnexError err (cleaned_message self query h m));
             CallSetStatus span ERROR (cleaned_message self query h m);
             CallEnd span]).
Proof.
  intros Hq Hm. unfold on_rejected.
  rewrite !(get_not_nullish h query) by exact Hq. rewrite Hm. reflexivity.
Qed.

(** Whatever happens in the handler, it appends nothing or the three calls
    on the span, the last of which ends it. *)
Lemma on_rejected_log (self : Runner) (query : JSValue) (span : nat) (err : JSValue)
  (h : Heap) (log : list Call) :
  exists tail,
    (on_rejected self query span err h log).2 = log ++ tail
    /\ (tail = []
        \/ exists exc message,
             tail = [CallRecordException span exc; CallSetStatus span ERROR message;
                     CallEnd span]).
Proof.
  unfold on_rejected.
  destruct (get h query (KString "sql")) as [sql | e].
  2: { exists []. rewrite app_nil_r. auto. }
  destruct (get h query (KString "bindings")) as [bindings | e].
  2: { exists []. rewrite app_nil_r. auto. }
  destruct (get h err (KString "message")) as [[| | | | | m | |] | e];
    try (exists []; rewrite app_nil_r; auto; fail).
  eexists. split; [reflexivity |]. right. eauto.
Qed.

(** ** What one execution adds to the log *)

Lemma started_attributes_app (l1 l2 : list Call) :
  started_attributes (l1 ++ l2) = started_attributes l1 ++ started_attributes l2.
Proof. apply flat_map_app. Qed.

Lemma started_parents_app (l1 l2 : list Call) :
  started_parents (l1 ++ l2) = started_parents l1 ++ started_parents l2.
Proof. apply flat_map_app. Qed.

Section ExecutionLog.
Context `{Utils} `{Tracing}.
Variables (instrumentation : KnexInstrumentation) (moduleVersion : JSValue).
Variables (original : HostQuery) (ambient : Context) (self : Runner).
Variables (args : list JSValue) (h : Heap) (log : list Call).

Lemma traced_prefix_spans :
  started_attributes (traced_prefix instrumentation moduleVersion ambient self args h)
  = [span_attributes instrumentation moduleVersion self args h]
  /\ started_parents (traced_prefix instrumentation moduleVersion ambient self args h)
     = [parentContext_of ambient self h]
  /\ started (traced_prefix instrumentation moduleVersion ambient self args h) = 1%nat
  /\ originals (traced_prefix instrumentation moduleVersion ambient self args h) = []
  /\ ends_of (started log) (traced_prefix instrumentation moduleVersion ambient self args h)
     = 0%nat.
Proof.
  unfold traced_prefix, attribute_calls.
  destruct (truthy (maxQueryLength_of instrumentation)); repeat split; reflexivity.
Qed.

(** A traced execution logs the prefix, the call of the original under the
    context that holds the new span, and then either the end of the span,
    or what the handler of a rejection got to. *)
Lemma traced_log :
  bypasses instrumentation ambient self h = false ->
  exists tail,
    (createQueryWrapper instrumentation moduleVersion original ambient self args h log).2
    = log ++ traced_prefix instrumentation moduleVersion ambient self args h
          ++ CallOriginal (traced_ambient ambient self h log) self args :: tail
    /\ (tail = [] \/ tail = [CallEnd (started log)]
        \/ exists exc message,
             tail = [CallRecordException (started log) exc;
                     CallSetStatus (started log) ERROR message;
                     CallEnd (started log)]).
Proof.
  intros Hb.
  destruct (original (traced_ambient ambient self h log) self args h)
    as [[result | err] h'] eqn:Horig.
  - rewrite (createQueryWrapper_resolves _ _ _ _ _ _ _ _ result h' Hb Horig).
    eexists. split; [reflexivity | auto].
  - rewrite (createQueryWrapper_rejects _ _ _ _ _ _ _ _ err h' Hb Horig).
    match goal with |- context [on_rejected ?a ?b ?c ?d ?e ?f] =>
      destruct (on_rejected_log a b c d e f) as (tail & -> & Htail) end.
    exists tail. split.
    + cbv [snd]. rewrite <- !app_assoc. reflexivity.
    + destruct Htail as [-> | (exc & message & ->)]; eauto.
Qed.

Lemma execution_spans :
  let run :=
    createQueryWrapper instrumentation moduleVersion original ambient self args h log in
  started_attributes run.2
  = started_attributes log
    ++ (if bypasses instrumentation ambient self h then []
        else [span_attributes instrumentation moduleVersion self args h])
  /\ started_parents run.2
     = started_parents log
       ++ (if bypasses instrumentation ambient self h then []
           else [parentContext_of ambient self h])
  /\ started run.2
     = (started log + (if bypasses instrumentation ambient self h then 0 else 1))%nat.
Proof.
  intros run. subst run.
  destruct (bypasses instrumentation ambient self h) eqn:Hb.
  - rewrite (createQueryWrapper_bypass _ _ _ _ _ _ _ _ Hb). simpl.
    rewrite started_attributes_app, started_parents_app, started_app.
    unfold attribute_calls.
    destruct (truthy (maxQueryLength_of instrumentation)); simpl;
      rewrite ?app_nil_r, ?Nat.add_0_r; auto.
  - destruct (traced_log Hb) as (tail & -> & Htail).
    destruct traced_prefix_spans as (Ha & Hp & Hs & _).
    rewrite !started_attributes_app, !started_parents_app, !started_app, Ha, Hp, Hs.
    destruct Htail as [-> | [-> | (exc & message & ->)]]; simpl;
      rewrite ?app_nil_r, ?Nat.add_0_r; auto.
Qed.

End ExecutionLog.

(** ** The attributes of a span *)

Lemma attributes_literal_lookup `{Utils} (moduleVersion : JSValue) (cfg : KnexConfig)
  (table operation name : JSValue) :
  let attributes := attributes_literal moduleVersion cfg table operation name in
  attributes !! "knex.version" = Some moduleVersion
  /\ attributes !! SEMATTRS_DB_SYSTEM = Some (mapSystem (config_client cfg))
  /\ attributes !! SEMATTRS_DB_SQL_TABLE = Some table
  /\ attributes !! SEMATTRS_DB_OPERATION = Some operation
  /\ attributes !! SEMATTRS_DB_USER = Some (connection_field user cfg)
  /\ attributes !! SEMATTRS_DB_NAME = Some name
  /\ attributes !! SEMATTRS_NET_PEER_NAME = Some (connection_field host cfg)
  /\ attributes !! SEMATTRS_NET_PEER_PORT = Some (connection_field port cfg)
  /\ attributes !! SEMATTRS_NET_TRANSPORT
     = Some (if strict_eq (connection_field filename cfg) (VString ":memory:")
             then VString "inproc" else VUndefined)
  /\ attributes !! SEMATTRS_DB_STATEMENT = None.
Proof.
  unfold attributes_literal. repeat split; vm_compute; reflexivity.
Qed.

Lemma attributes_of_lookup `{Utils} (moduleVersion : JSValue) (cfg : KnexConfig)
  (table operation name maxQueryLength sql : JSValue) (k : string) :
  k <> SEMATTRS_DB_STATEMENT ->
  attributes_of moduleVersion cfg table operation name maxQueryLength sql !! k
  = attributes_literal moduleVersion cfg table operation name !! k.
Proof.
  intros Hk. unfold attributes_of. destruct (truthy maxQueryLength); [| reflexivity].
  apply lookup_insert_ne. congruence.
Qed.

Lemma attributes_of_statement `{Utils} (moduleVersion : JSValue) (cfg : KnexConfig)
  (table operation name maxQueryLength sql : JSValue) :
  attributes_of moduleVersion cfg table operation name maxQueryLength sql
    !! SEMATTRS_DB_STATEMENT
  = if truthy maxQueryLength then Some (limitLength sql maxQueryLength) else None.
Proof.
  unfold attributes_of. destruct (truthy maxQueryLength).
  - apply lookup_insert_eq.
  - apply attributes_literal_lookup.
Qed.

(** C5, as amended.  In every traced execution the statement attribute is
    set exactly when the configured [maxQueryLength] is truthy, that is
    for every value other than [undefined], [null], [false], [0], [NaN]
    and the empty string: a negative number sets it, [NaN] does not.  Its
    value is what [limitLength] makes of [query?.sql], which for a
    positive [maxQueryLength] and an SQL text is the text cut to its first
    [maxQueryLength] characters.  With a falsy [maxQueryLength] the
    attribute object has no statement key at all. *)
Theorem statement_attribute_iff_truthy `{Utils} `{Tracing}
  (instrumentation : KnexInstrumentation) (moduleVersion : JSValue) (original : HostQuery)
  (ambient : Context) (self : Runner) (args : list JSValue) (h : Heap) (log : list Call) :
  bypasses instrumentation ambient self h = false ->
  let run :=
    createQueryWrapper instrumentation moduleVersion original ambient self args h log in
  let maxQueryLength := option_of (getConfig instrumentation) "maxQueryLength" in
  let sql := get_opt h (query_of args) (KString "sql") in
  exists attributes,
    started_attributes run.2 = started_attributes log ++ [attributes]
    /\ (is_Some (attributes !! SEMATTRS_DB_STATEMENT) <-> truthy maxQueryLength = true)
    /\ attributes !! SEMATTRS_DB_STATEMENT
       = (if truthy maxQueryLength then Some (limitLength sql maxQueryLength) else None)
    /\ (forall n, maxQueryLength = VNumber n ->
          (is_Some (attributes !! SEMATTRS_DB_STATEMENT) <-> n <> 0))
    /\ (forall n text, maxQueryLength = VNumber n -> 0 < n -> sql = VString text ->
         exists cut,
           attributes !! SEMATTRS_DB_STATEMENT = Some (VString cut)
           /\ Z.of_nat (String.length cut) <= n
           /\ String.prefix cut text = true
           /\ (Z.of_nat (String.length text) <= n -> cut = text))
    /\ (is_Some (attributes !! SEMATTRS_DB_STATEMENT) <-> maxQueryLength ∉ falsy_values)
    /\ (maxQueryLength = VNaN -> attributes !! SEMATTRS_DB_STATEMENT = None).
Proof.
  intros Hb run maxQueryLength sql. subst run.
  destruct (execution_spans instrumentation moduleVersion original ambient self args h log)
    as (Hattrs & _). rewrite Hb in Hattrs.
  eexists. split; [exact Hattrs |].
  unfold span_attributes. rewrite attributes_of_statement.
  fold sql. change (maxQueryLength_of instrumentation) with maxQueryLength.
  pose proof (truthy_falsy_values maxQueryLength) as Hfalsy.
  destruct (truthy maxQueryLength) eqn:Ht.
  - split; [split; eauto |]. split; [reflexivity |].
    split.
    { intros n Hn. rewrite Hn in Ht. simpl in Ht.
      apply negb_true_iff, Z.eqb_neq in Ht. split; eauto. }
    split.
    { intros n text Hn Hpos Hsql. rewrite Hn, Hsql. simpl.
      destruct (Z.ltb_spec 0 n) as [_ | Hle]; [| lia].
      eexists. split; [reflexivity |].
      pose proof (substring_length_le (Z.to_nat n) text) as Hlen.
      split; [lia |]. split; [apply substring_prefix |].
      intros Hall. apply substring_all. lia. }
    split.
    { split; [intros _; apply Hfalsy; reflexivity | eauto]. }
    intros Hn. rewrite Hn in Ht. discriminate.
  - split; [split; [intros [v Hv]; discriminate | discriminate] |].
    split; [reflexivity |].
    split.
    { intros n Hn. rewrite Hn in Ht. simpl in Ht.
      apply negb_false_iff, Z.eqb_eq in Ht.
      split; [intros [v Hv]; discriminate | intros Hne; contradiction]. }
    split.
    { intros n text Hn Hpos _. rewrite Hn in Ht. simpl in Ht.
      apply negb_false_iff, Z.eqb_eq in Ht. lia. }
    split.
    { split; [intros [v Hv]; discriminate |].
      intros Hnot. apply Hfalsy in Hnot. discriminate. }
    reflexivity.
Qed.

(** ** The bypass *)

(** C2, as amended.  With [requireParentSpan] set and no valid parent span
    in the resolved context, the wrapper calls the original once, on the
    same [this], with the same arguments and under the same ambient
    context, and hands on how it settles and the heap it leaves; no span is
    started.  The attributes are computed first all the same: the table
    extraction and the system mapping run, and the statement truncation
    too when [maxQueryLength] is truthy; their results are dropped. *)
Theorem bypass_hands_on_original `{Utils} `{Tracing}
  (instrumentation : KnexInstrumentation) (moduleVersion : JSValue) (original : HostQuery)
  (ambient : Context) (self : Runner) (args : list JSValue) (h : Heap) (log : list Call) :
  truthy (option_of (getConfig instrumentation) "requireParentSpan") = true ->
  hasActiveParent (parentContext_of ambient self h) = false ->
  let run :=
    createQueryWrapper instrumentation moduleVersion original ambient self args h log in
  let computed :=
    attribute_calls self (maxQueryLength_of instrumentation)
      (get_opt h (query_of args) (KString "sql")) in
  run = (unchanged (original ambient self args h).1, (original ambient self args h).2,
         log ++ computed ++ [CallOriginal ambient self args])
  /\ started run.2 = started log
  /\ started_attributes run.2 = started_attributes log
  /\ originals (computed ++ [CallOriginal ambient self args]) = [(ambient, self, args)]
  /\ List.filter is_attribute_computation (computed ++ [CallOriginal ambient self args])
     = computed
  /\ computed
     = [CallExtractTableName (builder self);
        CallMapSystem (config_client (config (client self)))]
       ++ (if truthy (option_of (getConfig instrumentation) "maxQueryLength")
           then [CallLimitLength (get_opt h (query_of args) (KString "sql"))
                   (option_of (getConfig instrumentation) "maxQueryLength")]
           else []).
Proof.
  intros Hreq Hparent run computed.
  assert (bypasses instrumentation ambient self h = true) as Hb.
  { unfold bypasses. change (_config instrumentation) with (getConfig instrumentation).
    rewrite Hreq, Hparent. reflexivity. }
  destruct (execution_spans instrumentation moduleVersion original ambient self args h log)
    as (Hattrs & _ & Hstarted).
  rewrite Hb, app_nil_r in Hattrs. rewrite Hb, Nat.add_0_r in Hstarted.
  subst run. split; [apply createQueryWrapper_bypass, Hb |].
  split; [exact Hstarted |]. split; [exact Hattrs |].
  subst computed. unfold attribute_calls, maxQueryLength_of.
  destruct (truthy (option_of (getConfig instrumentation) "maxQueryLength"));
    repeat split; reflexivity.
Qed.

(** ** The transport attribute and its neighbours *)

(** C6, as amended.  In every traced execution the attribute object handed
    to the tracer has the transport key, and its value is ['inproc']
    exactly when the connection's filename is [':memory:'] and [undefined]
    for any other filename or none; it is never [null].  The keys for
    table, operation, user, database name, peer host and peer port are own
    properties of that object as well, each with the value the helper, the
    query descriptor or the connection configuration gave, [undefined]
    when there is none.  Only the statement key can be missing. *)
Theorem transport_attribute_value `{Utils} `{Tracing}
  (instrumentation : KnexInstrumentation) (moduleVersion : JSValue) (original : HostQuery)
  (ambient : Context) (self : Runner) (args : list JSValue) (h : Heap) (log : list Call) :
  bypasses instrumentation ambient self h = false ->
  let run :=
    createQueryWrapper instrumentation moduleVersion original ambient self args h log in
  let cfg := config (client self) in
  exists attributes,
    started_attributes run.2 = started_attributes log ++ [attributes]
    /\ attributes !! SEMATTRS_NET_TRANSPORT
       = Some (if strict_eq (connection_field filename cfg) (VString ":memory:")
               then VString "inproc" else VUndefined)
    /\ (attributes !! SEMATTRS_NET_TRANSPORT = Some (VString "inproc")
        <-> connection_field filename cfg = VString ":memory:")
    /\ (attributes !! SEMATTRS_NET_TRANSPORT = Some VUndefined
        <-> connection_field filename cfg <> VString ":memory:")
    /\ attributes !! SEMATTRS_DB_SQL_TABLE = Some (extractTableName h (builder self))
    /\ attributes !! SEMATTRS_DB_OPERATION
       = Some (get_opt h (query_of args) (KString "method"))
    /\ attributes !! SEMATTRS_DB_USER = Some (connection_field user cfg)
    /\ attributes !! SEMATTRS_DB_NAME
       = Some (js_or (connection_field filename cfg) (connection_field database cfg))
    /\ attributes !! SEMATTRS_NET_PEER_NAME = Some (connection_field host cfg)
    /\ attributes !! SEMATTRS_NET_PEER_PORT = Some (connection_field port cfg).
Proof.
  intros Hb run cfg. subst run.
  destruct (execution_spans instrumentation moduleVersion original ambient self args h log)
    as (Hattrs & _). rewrite Hb in Hattrs.
  eexists. split; [exact Hattrs |].
  unfold span_attributes.
  rewrite !attributes_of_lookup by discriminate.
  match goal with |- context [attributes_literal ?a ?b ?c ?d ?e] =>
    destruct (attributes_literal_lookup a b c d e)
      as (_ & _ & Htable & Hop & Huser & Hname & Hhost & Hport & Htransport & _) end.
  rewrite Htable, Hop, Huser, Hname, Hhost, Hport, Htransport.
  fold cfg. rewrite strict_eq_string.
  repeat split; try reflexivity.
  - case_bool_decide; [auto | discriminate].
  - intros ->. reflexivity.
  - case_bool_decide; [discriminate | auto].
  - intros Hne. rewrite bool_decide_eq_false_2 by exact Hne. reflexivity.
Qed.

(** ** Rejections *)

(** A rejection whose handler runs through: the span gets the exception and
    the error status with the cleaned message and is ended, in this order;
    then the very value the host rejected with is thrown again, and the
    heap is the one the host left. *)
Lemma rejection_recorded_then_rethrown `{Utils} `{Tracing}
  (instrumentation : KnexInstrumentation) (moduleVersion : JSValue) (original : HostQuery)
  (ambient : Context) (self : Runner) (args : list JSValue) (h : Heap) (log : list Call)
  (err : JSValue) (h' : Heap) (m : string) :
  bypasses instrumentation ambient self h = false ->
  original (traced_ambient ambient self h log) self args h = (Rejects err, h') ->
  nullish (query_of args) = false ->
  get h' err (KString "message") = Normal (VString m) ->
  createQueryWrapper instrumentation moduleVersion original ambient self args h log
  = (Rejected (Raised err), h',
     log ++ traced_prefix instrumentation moduleVersion ambient self args h
         ++ [CallOriginal (traced_ambient ambient self h log) self args;
             CallRecordException (started log)
               (mkOtelException (cleaned_message self (query_of args) h' m) err);
             CallSetStatus (started log) ERROR (cleaned_message self (query_of args) h' m);
             CallEnd (started log)]).
Proof.
  intros Hb Horig Hq Hm.
  rewrite (createQueryWrapper_rejects _ _ _ _ _ _ _ _ err h' Hb Horig).
  rewrite (on_rejected_handled _ _ _ _ _ _ m Hq Hm). cbv [fst snd].
  rewrite <- !app_assoc. reflexivity.
Qed.

Lemma cleaned_message_prefix (self : Runner) (query : JSValue) (h : Heap) (rest : string) :
  cleaned_message self query h (fullQuery_of self query h +:+ " - " +:+ rest) = rest.
Proof.
  unfold cleaned_message.
  assert (forall a b c : string, a +:+ b +:+ c = (a +:+ b) +:+ c) as Hassoc.
  { intros a b c. induction a as [| x a IH]; [reflexivity |].
    change (String x (a +:+ b +:+ c) = String x ((a +:+ b) +:+ c)).
    f_equal. exact IH. }
  rewrite Hassoc. apply replace_first_prefix.
Qed.

(** On the two paths that run through, exactly one span is started and it
    is ended exactly once, by the last call. *)
Lemma span_started_and_ended_once `{Utils} `{Tracing}
  (instrumentation : KnexInstrumentation) (moduleVersion : JSValue) (original : HostQuery)
  (ambient : Context) (self : Runner) (args : list JSValue) (h : Heap) (log : list Call)
  (r : HostResult) (h' : Heap) :
  bypasses instrumentation ambient self h = false ->
  original (traced_ambient ambient self h log) self args h = (r, h') ->
  match r with
  | Resolves _ => True
  | Rejects err =>
      nullish (query_of args) = false
      /\ exists m, get h' err (KString "message") = Normal (VString m)
  end ->
  (createQueryWrapper instrumentation moduleVersion original ambient self args h log).1
  = (unchanged r, h')
  /\ exists calls,
       (createQueryWrapper instrumentation moduleVersion original ambient self args h log).2
       = log ++ calls ++ [CallEnd (started log)]
       /\ started calls = 1%nat
       /\ ends_of (started log) calls = 0%nat.
Proof.
  intros Hb Horig Hr.
  destruct (traced_prefix_spans instrumentation moduleVersion ambient self args h log)
    as (_ & _ & Hs & _ & He).
  destruct r as [result | err].
  - rewrite (createQueryWrapper_resolves _ _ _ _ _ _ _ _ result h' Hb Horig).
    split; [reflexivity |].
    exists (traced_prefix instrumentation moduleVersion ambient self args h
            ++ [CallOriginal (traced_ambient ambient self h log) self args]).
    split; [cbv [snd]; rewrite <- !app_assoc; reflexivity |].
    rewrite ends_of_app, started_app, He, Hs. split; reflexivity.
  - destruct Hr as (Hq & m & Hm).
    rewrite (rejection_recorded_then_rethrown _ _ _ _ _ _ _ _ err h' m Hb Horig Hq Hm).
    split; [reflexivity |].
    exists (traced_prefix instrumentation moduleVersion ambient self args h
            ++ [CallOriginal (traced_ambient ambient self h log) self args;
                CallRecordException (started log)
                  (mkOtelException (cleaned_message self (query_of args) h' m) err);
                CallSetStatus (started log) ERROR
                  (cleaned_message self (query_of args) h' m)]).
    split; [cbv [snd]; rewrite <- !app_assoc; reflexivity |].
    rewrite ends_of_app, started_app, He, Hs. split; reflexivity.
Qed.

(** C9.  The handler of a rejection reads [query.sql] and [err.message]
    unguarded, while the path of a resolution reads the query only through
    [query?.]: a resolution is handed on and the span ended whatever the
    query is.  On a rejection, when the query is neither [undefined] nor
    [null] (with or without an [sql] field) and the rejection value has a
    string [message], the handler runs through, the span is ended once and
    the original rejection value is thrown again.  When the query is
    [undefined] or [null], reading [query.sql] throws a [TypeError] before
    anything is recorded: the caller gets that error, which is not the
    original rejection, and the span is not ended. *)
Theorem rejection_handler_guards `{Utils} `{Tracing}
  (instrumentation : KnexInstrumentation) (moduleVersion : JSValue) (original : HostQuery)
  (ambient : Context) (self : Runner) (args : list JSValue) (h : Heap) (log : list Call)
  (r : HostResult) (h' : Heap) :
  bypasses instrumentation ambient self h = false ->
  original (traced_ambient ambient self h log) self args h = (r, h') ->
  let run :=
    createQueryWrapper instrumentation moduleVersion original ambient self args h log in
  (forall result, r = Resolves result ->
     run.1 = (Fulfilled result, h')
     /\ exists calls,
          run.2 = log ++ calls ++ [CallEnd (started log)]
          /\ started calls = 1%nat
          /\ ends_of (started log) calls = 0%nat)
  /\ (forall err m,
        r = Rejects err ->
        nullish (query_of args) = false ->
        get h' err (KString "message") = Normal (VString m) ->
        run.1 = (Rejected (Raised err), h')
        /\ exists calls,
             run.2 = log ++ calls ++ [CallEnd (started log)]
             /\ started calls = 1%nat
             /\ ends_of (started log) calls = 0%nat)
  /\ (forall err,
        r = Rejects err ->
        nullish (query_of args) = true ->
        run.1 = (Rejected (TypeError "Cannot read properties of undefined or null"), h')
        /\ run.1.1 <> Rejected (Raised err)
        /\ exists calls,
             run.2 = log ++ calls
             /\ started calls = 1%nat
             /\ ends_of (started log) calls = 0%nat).
Proof.
  intros Hb Horig run. subst run. split; [| split].
  - intros result ->.
    apply (span_started_and_ended_once _ _ _ _ _ _ _ _ (Resolves result) h' Hb Horig I).
  - intros err m -> Hq Hm.
    apply (span_started_and_ended_once _ _ _ _ _ _ _ _ (Rejects err) h' Hb Horig).
    split; [exact Hq | exists m; exact Hm].
  - intros err -> Hq.
    destruct (traced_prefix_spans instrumentation moduleVersion ambient self args h log)
      as (_ & _ & Hs & _ & He).
    rewrite (createQueryWrapper_rejects _ _ _ _ _ _ _ _ err h' Hb Horig).
    rewrite (on_rejected_nullish _ _ _ _ _ _ Hq).
    split; [reflexivity |]. split; [discriminate |].
    eexists. split; [reflexivity |].
    rewrite ends_of_app, started_app, He, Hs. split; reflexivity.
Qed.

(** ** The wrapped builder factories *)

Lemma storeContext_on_new_builder (original : Factory) (ambient : Context)
  (self : JSValue) (args : list JSValue) (h : Heap) (l : loc) (h1 : Heap) (o : Obj) :
  original ambient self args h = (Normal (VObject l), h1) ->
  h1 !! l = Some o ->
  o_props o !! contextSymbol = None ->
  o_extensible o = true ->
  exists h2,
    storeContext original ambient self args h = (Normal (VObject l), h2)
    /\ own_property h2 l contextSymbol
       = Some (mkProperty (VContext ambient) false false false)
    /\ (forall l' k, l' <> l \/ k <> contextSymbol ->
          own_property h2 l' k = own_property h1 l' k).
Proof.
  intros Horig Hl Hfresh Hext.
  pose proof (defineProperty_new h1 l o contextSymbol (VContext ambient) Hl Hfresh Hext)
    as Hdef.
  eexists. split; [| split].
  - rewrite storeContext_cases, Horig, Hdef. reflexivity.
  - unfold own_property. rewrite lookup_insert_eq. simpl. apply lookup_insert_eq.
  - intros l' k Hne.
    apply (proj1 (defineProperty_frame _ _ _ _ _ Hdef)).
    destruct Hne as [Hne | Hne]; [left; congruence | right; exact Hne].
Qed.

(** C10.  When the original factory throws, the wrapped one throws the
    same and leaves the heap as the original left it: nothing is attached.
    When the original returns, whatever the wrapped factory returns is
    that very value, and nothing in the heap differs from what the
    original left but the context property of the returned object; for a
    newly made, extensible object the property is added and the object is
    returned.  Whenever the wrapped factory throws, the heap is the one the
    original left. *)
Theorem storeContext_returns_the_builder (original : Factory) (ambient : Context)
  (self : JSValue) (args : list JSValue) (h : Heap) (r : Completion JSValue) (h1 : Heap) :
  original ambient self args h = (r, h1) ->
  (forall e, r = Throw e -> storeContext original ambient self args h = (Throw e, h1))
  /\ (forall b h2,
        storeContext original ambient self args h = (Normal b, h2) ->
        r = Normal b
        /\ (forall l k, b <> VObject l \/ k <> contextSymbol ->
              own_property h2 l k = own_property h1 l k)
        /\ (forall l, o_extensible <$> h2 !! l = o_extensible <$> h1 !! l)
        /\ dom h2 = dom h1)
  /\ (forall l o,
        r = Normal (VObject l) -> h1 !! l = Some o ->
        o_props o !! contextSymbol = None -> o_extensible o = true ->
        storeContext original ambient self args h
        = (Normal (VObject l),
           <[l := mkObj (<[contextSymbol := mkProperty (VContext ambient) false false false]>
                           (o_props o)) true]> h1))
  /\ (forall e h2, storeContext original ambient self args h = (Throw e, h2) -> h2 = h1).
Proof.
  intros Horig. rewrite storeContext_cases, Horig.
  split; [| split; [| split]].
  - intros e ->. reflexivity.
  - intros b h2. destruct r as [b0 | e]; [| discriminate].
    destruct (defineProperty h1 b0 contextSymbol (VContext ambient)) as [h2' | e] eqn:Hdef;
      [| discriminate].
    intros Heq. injection Heq as <- <-.
    split; [reflexivity |]. exact (defineProperty_frame _ _ _ _ _ Hdef).
  - intros l o -> Hl Hfresh Hext.
    rewrite (defineProperty_new _ _ _ _ _ Hl Hfresh Hext). reflexivity.
  - intros e h2. destruct r as [b0 | e0].
    + destruct (defineProperty h1 b0 contextSymbol (VContext ambient)); [discriminate |].
      intros Heq. injection Heq as _ <-. reflexivity.
    + intros Heq. injection Heq as _ <-. reflexivity.
Qed.

(** C4.  A builder that a wrapped factory made under the ambient context
    [C1] carries [C1] under the context symbol, in a property that is not
    enumerable and that assignment, redefinition with another value and
    deletion all fail on; nothing else about the builder or the heap
    differs from what the original factory left.  A query executed on that
    builder under any ambient context [C2] resolves [C1] as parent context:
    the span it starts, if it starts one, has [C1] as parent.  On a builder
    without the property the ambient context is the parent. *)
Theorem captured_context_is_span_parent `{Utils} `{Tracing}
  (original : Factory) (C1 : Context) (receiver : JSValue) (fargs : list JSValue)
  (h h1 : Heap) (l : loc) (o : Obj) :
  original C1 receiver fargs h = (Normal (VObject l), h1) ->
  h1 !! l = Some o ->
  o_props o !! contextSymbol = None ->
  o_extensible o = true ->
  exists h2,
    storeContext original C1 receiver fargs h = (Normal (VObject l), h2)
    /\ own_property h2 l contextSymbol = Some (mkProperty (VContext C1) false false false)
    /\ (contextSymbol ∉ enumerable_keys h2 l)
    /\ (forall v, exists e, assign h2 l contextSymbol v = Throw e)
    /\ (forall v, v <> VContext C1 ->
          exists e, defineProperty h2 (VObject l) contextSymbol v = Throw e)
    /\ (exists e, delete_property h2 l contextSymbol = Throw e)
    /\ (forall l' k, l' <> l \/ k <> contextSymbol ->
          own_property h2 l' k = own_property h1 l' k)
    /\ (forall instrumentation moduleVersion (query : HostQuery) (C2 : Context)
               (self : Runner) (args : list JSValue) (hx : Heap) (log : list Call),
          builder self = l ->
          own_property hx l contextSymbol = own_property h2 l contextSymbol ->
          parentContext_of C2 self hx = VContext C1
          /\ started_parents
               (createQueryWrapper instrumentation moduleVersion query C2 self args hx log).2
             = started_parents log
               ++ (if bypasses instrumentation C2 self hx then [] else [VContext C1]))
    /\ (forall instrumentation moduleVersion (query : HostQuery) (C2 : Context)
               (self : Runner) (args : list JSValue) (hx : Heap) (log : list Call),
          own_property hx (builder self) contextSymbol = None ->
          parentContext_of C2 self hx = VContext C2
          /\ started_parents
               (createQueryWrapper instrumentation moduleVersion query C2 self args hx log).2
             = started_parents log
               ++ (if bypasses instrumentation C2 self hx then [] else [VContext C2])).
Proof.
  intros Horig Hl Hfresh Hext.
  destruct (storeContext_on_new_builder original C1 receiver fargs h l h1 o
              Horig Hl Hfresh Hext) as (h2 & Hstore & Hprop & Hframe).
  exists h2. split; [exact Hstore |]. split; [exact Hprop |].
  destruct (locked_property h2 l contextSymbol (VContext C1) Hprop)
    as (Hassign & Hdefine & Hdelete & Henum).
  repeat (split; [assumption |]).
  split.
  - intros instrumentation moduleVersion query C2 self args hx log Hbuilder Hsame.
    assert (parentContext_of C2 self hx = VContext C1) as Hparent.
    { unfold parentContext_of, get_own. rewrite Hbuilder, Hsame, Hprop. reflexivity. }
    split; [exact Hparent |].
    destruct (execution_spans instrumentation moduleVersion query C2 self args hx log)
      as (_ & Hparents & _).
    rewrite Hparents, Hparent. reflexivity.
  - intros instrumentation moduleVersion query C2 self args hx log Hnone.
    assert (parentContext_of C2 self hx = VContext C2) as Hparent.
    { unfold parentContext_of, get_own. rewrite Hnone. reflexivity. }
    split; [exact Hparent |].
    destruct (execution_spans instrumentation moduleVersion query C2 self args hx log)
      as (_ & Hparents & _).
    rewrite Hparents, Hparent. reflexivity.
Qed.

(** ** The claims on sample executions *)

(** A rejection on a well-formed query, for comparison with the next two:
    the error comes back, the span has the message without the statement
    and is ended. *)
Example rejection_on_sample_query :
  let run := Sample.execute None (Sample.host_rejects (VObject 3%nat)) Sample.ROOT_CONTEXT
               (Sample.runner "test.db") [VObject 2%nat] in
  run.1.1 = Rejected (Raised (VObject 3%nat))
  /\ exc_message <$> recorded_exceptions 0 run.2 = ["SQLITE_ERROR: no such table: users"]
  /\ recorded_statuses 0 run.2 = [(ERROR, "SQLITE_ERROR: no such table: users")]
  /\ ends_of 0 run.2 = 1%nat.
Proof. vm_compute. repeat split; reflexivity. Qed.

(** C1, at the failing input.  The wrapper is called without a query
    descriptor and the host rejects with the error object at address 3.
    The promise of the wrapper rejects with a [TypeError] of the handler
    instead of that error, and the span got no exception, no status and no
    end. *)
Theorem undefined_query_rejection_loses_the_error :
  let run := Sample.execute None (Sample.host_rejects (VObject 3%nat)) Sample.ROOT_CONTEXT
               (Sample.runner "test.db") [] in
  run.1.1 = Rejected (TypeError "Cannot read properties of undefined or null")
  /\ run.1.1 <> Rejected (Raised (VObject 3%nat))
  /\ length (originals run.2) = 1%nat
  /\ recorded_exceptions 0 run.2 = []
  /\ recorded_statuses 0 run.2 = []
  /\ ends_of 0 run.2 = 0%nat.
Proof. vm_compute. repeat split; try reflexivity. discriminate. Qed.

(** C3, at the failing input.  With [requireParentSpan] false, a [null]
    query descriptor and a host that rejects, one span is started and it
    is never ended. *)
Theorem null_query_rejection_leaves_the_span_open :
  let self := new_KnexInstrumentation None in
  let run := Sample.execute None (Sample.host_rejects (VObject 3%nat)) Sample.ROOT_CONTEXT
               (Sample.runner "test.db") [VNull] in
  option_of (getConfig self) "requireParentSpan" = VBool false
  /\ started run.2 = 1%nat
  /\ ends_of 0 run.2 = 0%nat
  /\ (exists reason, run.1.1 = Rejected (TypeError reason)).
Proof. vm_compute. repeat split; try reflexivity. eexists. reflexivity. Qed.

(** C2, as stated, fails: with [requireParentSpan] true and no parent span
    the original is called and no span is started, but the table
    extraction, the system mapping and the statement truncation have run
    before. *)
Lemma bypass_computes_attributes_first :
  let options := Some (Sample.config_of (VNumber 1022) (VBool true)) in
  let run := Sample.execute options (Sample.host_resolves (VNumber 1)) Sample.ROOT_CONTEXT
               (Sample.runner "test.db") [VObject 2%nat] in
  @bypasses Sample.tracing (new_KnexInstrumentation options) Sample.ROOT_CONTEXT
    (Sample.runner "test.db") Sample.heap = true
  /\ run.1.1 = Fulfilled (VNumber 1)
  /\ started run.2 = 0%nat
  /\ List.filter is_attribute_computation run.2
     = [CallExtractTableName 1%nat; CallMapSystem (VString "sqlite3");
        CallLimitLength (VString "select * from users") (VNumber 1022)].
Proof. vm_compute. repeat split; reflexivity. Qed.

(** C5, as stated, fails: [maxQueryLength = -1] is not positive, yet the
    statement attribute is set. *)
Lemma negative_maxQueryLength_sets_the_statement :
  let options := Some (Sample.config_of (VNumber (-1)) (VBool false)) in
  let run := Sample.execute options (Sample.host_resolves (VNumber 1)) Sample.ROOT_CONTEXT
               (Sample.runner "test.db") [VObject 2%nat] in
  option_of (getConfig (new_KnexInstrumentation options)) "maxQueryLength" = VNumber (-1)
  /\ ~ (0 < -1)
  /\ (fun attributes : gmap string JSValue =>
        bool_decide (is_Some (attributes !! SEMATTRS_DB_STATEMENT)))
       <$> started_attributes run.2
     = [true].
Proof. vm_compute. repeat split; try reflexivity. discriminate. Qed.

(** C6, as stated, fails: for the file database [test.db] the attribute
    object handed to the tracer has the transport key, with the value
    [undefined], and likewise the user, peer host and peer port keys. *)
Lemma file_database_has_undefined_transport_entry :
  let run := Sample.execute None (Sample.host_resolves (VNumber 1)) Sample.ROOT_CONTEXT
               (Sample.runner "test.db") [VObject 2%nat] in
  (fun attributes : gmap string JSValue =>
     (attributes !! SEMATTRS_NET_TRANSPORT, attributes !! SEMATTRS_DB_USER,
      attributes !! SEMATTRS_NET_PEER_NAME, attributes !! SEMATTRS_NET_PEER_PORT))
    <$> started_attributes run.2
  = [(Some VUndefined, Some VUndefined, Some VUndefined, Some VUndefined)].
Proof. vm_compute. reflexivity. Qed.

(** ** The theorems at sample inputs *)

Lemma bypass_hands_on_original_witness :
  let options := Some (Sample.config_of (VNumber 1022) (VBool true)) in
  Sample.execute options (Sample.host_rejects (VObject 3%nat)) Sample.ROOT_CONTEXT
    (Sample.runner "test.db") [VObject 2%nat]
  = (Rejected (Raised (VObject 3%nat)), Sample.heap,
     [CallExtractTableName 1%nat; CallMapSystem (VString "sqlite3");
      CallLimitLength (VString "select * from users") (VNumber 1022);
      CallOriginal Sample.ROOT_CONTEXT (Sample.runner "test.db") [VObject 2%nat]]).
Proof.
  intros options.
  destruct (@bypass_hands_on_original Sample.utils Sample.tracing
              (new_KnexInstrumentation options) (VString "3.1.0")
              (Sample.host_rejects (VObject 3%nat)) Sample.ROOT_CONTEXT
              (Sample.runner "test.db") [VObject 2%nat] Sample.heap [])
    as (Hrun & _).
  - vm_compute. reflexivity.
  - vm_compute. reflexivity.
  - exact Hrun.
Defined.

Lemma statement_attribute_iff_truthy_witness :
  let execute := fun maxQueryLength =>
    Sample.execute (Some (Sample.config_of maxQueryLength (VBool false)))
      (Sample.host_resolves (VNumber 1)) Sample.ROOT_CONTEXT
      (Sample.runner "test.db") [VObject 2%nat] in
  (exists attributes,
     started_attributes (execute (VNumber 6)).2 = [attributes]
     /\ attributes !! SEMATTRS_DB_STATEMENT = Some (VString "select"))
  /\ (exists attributes,
        started_attributes (execute VNaN).2 = [attributes]
        /\ attributes !! SEMATTRS_DB_STATEMENT = None).
Proof.
  intros execute. split.
  - destruct (@statement_attribute_iff_truthy Sample.utils Sample.tracing
                (new_KnexInstrumentation
                   (Some (Sample.config_of (VNumber 6) (VBool false))))
                (VString "3.1.0")
                (Sample.host_resolves (VNumber 1)) Sample.ROOT_CONTEXT
                (Sample.runner "test.db") [VObject 2%nat] Sample.heap [])
      as (attributes & Hstarted & _ & Hvalue & _).
    + vm_compute. reflexivity.
    + exists attributes. split; [exact Hstarted | exact Hvalue].
  - destruct (@statement_attribute_iff_truthy Sample.utils Sample.tracing
                (new_KnexInstrumentation (Some (Sample.config_of VNaN (VBool false))))
                (VString "3.1.0")
                (Sample.host_resolves (VNumber 1)) Sample.ROOT_CONTEXT
                (Sample.runner "test.db") [VObject 2%nat] Sample.heap [])
      as (attributes & Hstarted & _ & _ & _ & _ & _ & Hnan).
    + vm_compute. reflexivity.
    + exists attributes. split; [exact Hstarted | apply Hnan; reflexivity].
Defined.

Lemma transport_attribute_value_witness :
  let run := Sample.execute None (Sample.host_resolves (VNumber 1)) Sample.ROOT_CONTEXT
               (Sample.runner ":memory:") [VObject 2%nat] in
  exists attributes,
    started_attributes run.2 = [attributes]
    /\ attributes !! SEMATTRS_NET_TRANSPORT = Some (VString "inproc").
Proof.
  intros run.
  destruct (@transport_attribute_value Sample.utils Sample.tracing
              (new_KnexInstrumentation None) (VString "3.1.0")
              (Sample.host_resolves (VNumber 1)) Sample.ROOT_CONTEXT
              (Sample.runner ":memory:") [VObject 2%nat] Sample.heap [])
    as (attributes & Hstarted & Hvalue & _).
  - vm_compute. reflexivity.
  - exists attributes. split; [exact Hstarted | exact Hvalue].
Defined.

Lemma rejection_handler_guards_witness :
  (Sample.execute None (Sample.host_rejects (VObject 3%nat)) Sample.ROOT_CONTEXT
     (Sample.runner "test.db") [VObject 2%nat]).1
  = (Rejected (Raised (VObject 3%nat)), Sample.heap)
  /\ (Sample.execute None (Sample.host_rejects (VObject 3%nat)) Sample.ROOT_CONTEXT
        (Sample.runner "test.db") [VUndefined]).1
     = (Rejected (TypeError "Cannot read properties of undefined or null"), Sample.heap).
Proof.
  split.
  - destruct (@rejection_handler_guards Sample.utils Sample.tracing
                (new_KnexInstrumentation None) (VString "3.1.0")
                (Sample.host_rejects (VObject 3%nat)) Sample.ROOT_CONTEXT
                (Sample.runner "test.db") [VObject 2%nat] Sample.heap []
                (Rejects (VObject 3%nat)) Sample.heap) as (_ & Hhandled & _).
    + vm_compute. reflexivity.
    + reflexivity.
    + destruct (Hhandled (VObject 3%nat)
                  "select * from users - SQLITE_ERROR: no such table: users")
        as (Hrun & _).
      * reflexivity.
      * reflexivity.
      * vm_compute. reflexivity.
      * exact Hrun.
  - destruct (@rejection_handler_guards Sample.utils Sample.tracing
                (new_KnexInstrumentation None) (VString "3.1.0")
                (Sample.host_rejects (VObject 3%nat)) Sample.ROOT_CONTEXT
                (Sample.runner "test.db") [VUndefined] Sample.heap []
                (Rejects (VObject 3%nat)) Sample.heap) as (_ & _ & Hfails).
    + vm_compute. reflexivity.
    + reflexivity.
    + destruct (Hfails (VObject 3%nat)) as (Hrun & _);
        [reflexivity | reflexivity | exact Hrun].
Defined.

Lemma storeContext_returns_the_builder_witness :
  storeContext (Sample.factory_throws (VObject 3%nat)) Sample.request_context VUndefined []
    Sample.heap
  = (Throw (Raised (VObject 3%nat)), Sample.heap)
  /\ storeContext (Sample.factory_new 5%nat) Sample.request_context VUndefined [] Sample.heap
     = (Normal (VObject 5%nat),
        <[5%nat := mkObj (<[contextSymbol :=
                              mkProperty (VContext Sample.request_context) false false false]>
                            ∅) true]>
          (<[5%nat := Sample.empty_object]> Sample.heap)).
Proof.
  split.
  - destruct (storeContext_returns_the_builder (Sample.factory_throws (VObject 3%nat))
                Sample.request_context VUndefined [] Sample.heap
                (Throw (Raised (VObject 3%nat))) Sample.heap eq_refl) as (Hthrow & _).
    apply Hthrow. reflexivity.
  - destruct (storeContext_returns_the_builder (Sample.factory_new 5%nat)
                Sample.request_context VUndefined [] Sample.heap
                (Normal (VObject 5%nat)) (<[5%nat := Sample.empty_object]> Sample.heap)
                eq_refl) as (_ & _ & Hnew & _).
    apply (Hnew 5%nat Sample.empty_object); reflexivity.
Defined.

Lemma captured_context_is_span_parent_witness :
  exists h2,
    storeContext (Sample.factory_new 5%nat) Sample.request_context VUndefined [] Sample.heap
    = (Normal (VObject 5%nat), h2)
    /\ started_parents
         (@createQueryWrapper Sample.utils Sample.tracing (new_KnexInstrumentation None)
            (VString "3.1.0") (Sample.host_resolves (VNumber 1)) Sample.ROOT_CONTEXT
            (Sample.runner_at "test.db" 5%nat) [VObject 2%nat] h2 []).2
       = [VContext Sample.request_context].
Proof.
  destruct (@captured_context_is_span_parent Sample.utils Sample.tracing
              (Sample.factory_new 5%nat) Sample.request_context VUndefined []
              Sample.heap (<[5%nat := Sample.empty_object]> Sample.heap) 5%nat
              Sample.empty_object eq_refl)
    as (h2 & Hstore & _ & _ & _ & _ & _ & _ & Hexec & _).
  - reflexivity.
  - reflexivity.
  - reflexivity.
  - exists h2. split; [exact Hstore |].
    destruct (Hexec (new_KnexInstrumentation None) (VString "3.1.0")
                (Sample.host_resolves (VNumber 1)) Sample.ROOT_CONTEXT
                (Sample.runner_at "test.db" 5%nat) [VObject 2%nat] h2 [] eq_refl eq_refl)
      as (_ & Hparents).
    exact Hparents.
Defined.

(** * Further properties *)

(** ** The interceptor and the module hooks *)

(** X1.  [ensureWrapped] fails exactly when the object has no such method.
    When it succeeds, every other method of the object is as before, the
    object has the same method names, the method carries the
    wrapped-marker, and calling [ensureWrapped] again with the same wrapper
    changes nothing. *)
Theorem ensureWrapped_touches_one_method {F W : Type}
  (obj : gmap string (Method F W)) (methodName : string) (w : W) :
  (ensureWrapped obj methodName w = None <-> obj !! methodName = None)
  /\ forall obj',
       ensureWrapped obj methodName w = Some obj' ->
       (forall k, k <> methodName -> obj' !! k = obj !! k)
       /\ dom obj' = dom obj
       /\ isWrapped (obj' !! methodName) = true
       /\ ensureWrapped obj' methodName w = Some obj'.
Proof.
  destruct (obj !! methodName) as [m |] eqn:Hm.
  - rewrite (ensureWrapped_unfold _ _ w m Hm). split; [split; discriminate |].
    intros obj' Heq. injection Heq as <-. split; [| split; [| split]].
    + intros k Hk. apply lookup_insert_ne. congruence.
    + apply dom_insert_lookup_L. eauto.
    + rewrite lookup_insert_eq. reflexivity.
    + rewrite (ensureWrapped_unfold _ _ w (Wrapped w (original_of m)))
        by apply lookup_insert_eq.
      simpl. rewrite insert_insert_eq. reflexivity.
  - assert (ensureWrapped obj methodName w = None) as ->
      by (unfold ensureWrapped, _wrap; rewrite Hm; simpl; rewrite Hm; reflexivity).
    split; [split; reflexivity | discriminate].
Qed.

Lemma ensureWrapped_all_snoc {F W : Type} (obj : gmap string (Method F W))
  (methodName : string) (m : Method F W) (ws : list W) (w : W) :
  obj !! methodName = Some m ->
  ensureWrapped_all obj methodName (ws ++ [w])
  = Some (<[methodName := Wrapped w (original_of m)]> obj).
Proof.
  intros Hm. rewrite (ensureWrapped_all_unfold _ _ _ _ Hm).
  destruct ws as [| w0 ws]; [reflexivity |].
  change ((w0 :: ws) ++ [w]) with (w0 :: (ws ++ [w])). cbv beta iota.
  rewrite List.last_last. reflexivity.
Qed.

Lemma runner_patch_each (basePath : string)
  (prototype : gmap string (Method HostQuery KnexWrapper)) (moduleVersions : list JSValue) :
  patch_each (getRunnerNodeModuleFileInstrumentation basePath) prototype moduleVersions
  = ensureWrapped_all prototype "query" (QueryWrapper <$> moduleVersions).
Proof.
  revert prototype. induction moduleVersions as [| v vs IH]; intros prototype; [reflexivity |].
  simpl. unfold patch_runner.
  destruct (ensureWrapped prototype "query" (QueryWrapper v)); simpl; [apply IH | reflexivity].
Qed.

(** X2.  The runner file, patched for any number of module versions in a
    row on a prototype whose [query] is the host's, ends up with
    [createQueryWrapper] of the last version around the host's [query],
    once: a call of [query] then starts at most one span, tagged with that
    version.  Every other method of the prototype is as before, and one
    unpatch gives back the prototype. *)
Theorem runner_file_installs_one_query_wrapper `{Utils} `{Tracing}
  (instrumentation : KnexInstrumentation) (basePath : string)
  (prototype : gmap string (Method HostQuery KnexWrapper)) (original : HostQuery)
  (earlier : list JSValue) (moduleVersion : JSValue) :
  prototype !! "query" = Some (HostMethod original) ->
  let file := getRunnerNodeModuleFileInstrumentation basePath in
  exists patched,
    patch_each file prototype (earlier ++ [moduleVersion]) = Some patched
    /\ patched !! "query" = Some (Wrapped (QueryWrapper moduleVersion) (HostMethod original))
    /\ (query_behaviour instrumentation <$> patched !! "query")
       = Some (Some (createQueryWrapper instrumentation moduleVersion original))
    /\ (forall k, k <> "query" -> patched !! k = prototype !! k)
    /\ file_unpatch file patched moduleVersion = prototype
    /\ forall ambient self args h log,
         let run :=
           createQueryWrapper instrumentation moduleVersion original ambient self args h log in
         (fun attributes : gmap string JSValue => attributes !! "knex.version")
           <$> started_attributes run.2
         = ((fun attributes : gmap string JSValue => attributes !! "knex.version")
              <$> started_attributes log)
           ++ (if bypasses instrumentation ambient self h then [] else [Some moduleVersion]).
Proof.
  intros Hquery file. subst file.
  assert (forall w : KnexWrapper,
            _unwrap (<["query" := Wrapped w (HostMethod original)]> prototype) "query"
            = prototype) as Hunwrap
    by (intros w; apply (_unwrap_wrapped _ _ _ _ Hquery)).
  assert (patch_each (getRunnerNodeModuleFileInstrumentation basePath) prototype
            (earlier ++ [moduleVersion])
          = Some (<["query" := Wrapped (QueryWrapper moduleVersion) (HostMethod original)]>
                    prototype)) as ->.
  { rewrite runner_patch_each, fmap_app.
    apply (ensureWrapped_all_snoc _ _ _ _ _ Hquery). }
  eexists. split; [reflexivity |].
  split; [apply lookup_insert_eq |]. split; [rewrite lookup_insert_eq; reflexivity |].
  split; [intros k Hk; apply lookup_insert_ne; congruence |].
  split; [apply Hunwrap |].
  intros ambient self args h log. cbv zeta.
  destruct (execution_spans instrumentation moduleVersion original ambient self args h log)
    as (-> & _).
  rewrite fmap_app. f_equal.
  destruct (bypasses instrumentation ambient self h); [reflexivity |].
  change ([span_attributes instrumentation moduleVersion self args h !! "knex.version"]
          = [Some moduleVersion]).
  unfold span_attributes. rewrite attributes_of_lookup by discriminate.
  match goal with |- context [attributes_literal ?a ?b ?c ?d ?e] =>
    destruct (attributes_literal_lookup a b c d e) as (-> & _) end.
  reflexivity.
Qed.

Lemma runner_file_installs_one_query_wrapper_witness :
  exists patched,
    patch_each (getRunnerNodeModuleFileInstrumentation "lib/execution")
      Scenario.runner_prototype [VString "2.5.1"; VString "3.1.0"] = Some patched
    /\ patched !! "query"
       = Some (Wrapped (QueryWrapper (VString "3.1.0"))
                 (HostMethod (Sample.host_resolves (VNumber 1))))
    /\ file_unpatch (getRunnerNodeModuleFileInstrumentation "lib/execution") patched
         (VString "3.1.0")
       = Scenario.runner_prototype.
Proof.
  destruct (@runner_file_installs_one_query_wrapper Sample.utils Sample.tracing
              (new_KnexInstrumentation None) "lib/execution" Scenario.runner_prototype
              (Sample.host_resolves (VNumber 1)) [VString "2.5.1"] (VString "3.1.0"))
    as (patched & Hpatch & Hquery & _ & _ & Hunpatch & _).
  - reflexivity.
  - exists patched. split; [exact Hpatch |]. split; [exact Hquery | exact Hunpatch].
Defined.

Lemma client_patch_step (p : gmap string (Method Factory KnexWrapper))
  (m1 m2 m3 : Method Factory KnexWrapper) :
  p !! "queryBuilder" = Some m1 ->
  p !! "schemaBuilder" = Some m2 ->
  p !! "raw" = Some m3 ->
  exists p',
    patch_client p StoreContextWrapper StoreContextWrapper StoreContextWrapper = Some p'
    /\ p' !! "queryBuilder" = Some (Wrapped StoreContextWrapper (original_of m1))
    /\ p' !! "schemaBuilder" = Some (Wrapped StoreContextWrapper (original_of m2))
    /\ p' !! "raw" = Some (Wrapped StoreContextWrapper (original_of m3))
    /\ forall k, k <> "queryBuilder" -> k <> "schemaBuilder" -> k <> "raw" ->
         p' !! k = p !! k.
Proof.
  intros H1 H2 H3. unfold patch_client.
  destruct (ensureWrapped_lookup p "queryBuilder" StoreContextWrapper _ H1)
    as (p1 & -> & Hp1 & Ho1).
  simpl.
  destruct (ensureWrapped_lookup p1 "schemaBuilder" StoreContextWrapper m2)
    as (p2 & -> & Hp2 & Ho2).
  { rewrite Ho1 by discriminate. exact H2. }
  simpl.
  destruct (ensureWrapped_lookup p2 "raw" StoreContextWrapper m3) as (p3 & -> & Hp3 & Ho3).
  { rewrite Ho2, Ho1 by discriminate. exact H3. }
  exists p3. split; [reflexivity |].
  split; [rewrite Ho3, Ho2 by discriminate; exact Hp1 |].
  split; [rewrite Ho3 by discriminate; exact Hp2 |].
  split; [exact Hp3 |].
  intros k K1 K2 K3. rewrite Ho3, Ho2, Ho1 by assumption. reflexivity.
Qed.

Lemma client_patch_each (basePath : string) (versions : list JSValue) :
  forall (p : gmap string (Method Factory KnexWrapper)) (m1 m2 m3 : Method Factory KnexWrapper)
         (v : JSValue),
    p !! "queryBuilder" = Some m1 ->
    p !! "schemaBuilder" = Some m2 ->
    p !! "raw" = Some m3 ->
    exists p',
      patch_each (getClientNodeModuleFileInstrumentation basePath) p (versions ++ [v])
      = Some p'
      /\ p' !! "queryBuilder" = Some (Wrapped StoreContextWrapper (original_of m1))
      /\ p' !! "schemaBuilder" = Some (Wrapped StoreContextWrapper (original_of m2))
      /\ p' !! "raw" = Some (Wrapped StoreContextWrapper (original_of m3))
      /\ forall k, k <> "queryBuilder" -> k <> "schemaBuilder" -> k <> "raw" ->
           p' !! k = p !! k.
Proof.
  induction versions as [| v0 vs IH]; intros p m1 m2 m3 v H1 H2 H3.
  - destruct (client_patch_step p m1 m2 m3 H1 H2 H3) as (p' & Hp & Hrest).
    exists p'. split; [| exact Hrest]. simpl. rewrite Hp. reflexivity.
  - destruct (client_patch_step p m1 m2 m3 H1 H2 H3) as (p1 & Hp & G1 & G2 & G3 & Go).
    destruct (IH p1 _ _ _ v G1 G2 G3) as (p' & Hp' & K1 & K2 & K3 & Ko).
    exists p'. split.
    + change ((v0 :: vs) ++ [v]) with (v0 :: (vs ++ [v])). simpl. rewrite Hp. exact Hp'.
    + split; [exact K1 |]. split; [exact K2 |]. split; [exact K3 |].
      intros k N1 N2 N3. rewrite Ko, Go by assumption. reflexivity.
Qed.

Lemma client_unpatch_restores (prototype patched : gmap string (Method Factory KnexWrapper))
  (f1 f2 f3 : Factory) :
  prototype !! "queryBuilder" = Some (HostMethod f1) ->
  prototype !! "schemaBuilder" = Some (HostMethod f2) ->
  prototype !! "raw" = Some (HostMethod f3) ->
  patched !! "queryBuilder" = Some (Wrapped StoreContextWrapper (HostMethod f1)) ->
  patched !! "schemaBuilder" = Some (Wrapped StoreContextWrapper (HostMethod f2)) ->
  patched !! "raw" = Some (Wrapped StoreContextWrapper (HostMethod f3)) ->
  (forall k, k <> "queryBuilder" -> k <> "schemaBuilder" -> k <> "raw" ->
     patched !! k = prototype !! k) ->
  unpatch_client patched = prototype.
Proof.
  intros H1 H2 H3 K1 K2 K3 Ko.
  apply map_eq. intros k. unfold unpatch_client.
  rewrite !_unwrap_lookup.
  repeat case_decide; subst; simpl in *; try discriminate.
  - rewrite K3. symmetry. exact H3.
  - rewrite K2. symmetry. exact H2.
  - rewrite K1. symmetry. exact H1.
  - apply Ko; assumption.
Qed.

(** X3.  The client file, patched any number of times in a row on a
    prototype whose three builder factories are the host's, ends up with
    [storeContext] around each of the host's factories, once: a builder is
    given its context by one [storeContext], not by a stack of them.  Every
    other method of the prototype is as before, and one unpatch gives back
    the prototype. *)
Theorem client_file_installs_one_capture (basePath : string)
  (prototype : gmap string (Method Factory KnexWrapper)) (f1 f2 f3 : Factory)
  (earlier : list JSValue) (moduleVersion : JSValue) :
  prototype !! "queryBuilder" = Some (HostMethod f1) ->
  prototype !! "schemaBuilder" = Some (HostMethod f2) ->
  prototype !! "raw" = Some (HostMethod f3) ->
  let file := getClientNodeModuleFileInstrumentation basePath in
  exists patched,
    patch_each file prototype (earlier ++ [moduleVersion]) = Some patched
    /\ (factory_behaviour <$> patched !! "queryBuilder") = Some (Some (storeContext f1))
    /\ (factory_behaviour <$> patched !! "schemaBuilder") = Some (Some (storeContext f2))
    /\ (factory_behaviour <$> patched !! "raw") = Some (Some (storeContext f3))
    /\ (forall k, k <> "queryBuilder" -> k <> "schemaBuilder" -> k <> "raw" ->
          patched !! k = prototype !! k)
    /\ file_unpatch file patched moduleVersion = prototype.
Proof.
  intros H1 H2 H3 file. subst file.
  destruct (client_patch_each basePath earlier prototype _ _ _ moduleVersion H1 H2 H3)
    as (patched & Hpatch & K1 & K2 & K3 & Ko).
  exists patched. split; [exact Hpatch |].
  rewrite K1, K2, K3. repeat (split; [reflexivity |]).
  split; [exact Ko |].
  apply (client_unpatch_restores _ _ f1 f2 f3 H1 H2 H3 K1 K2 K3 Ko).
Qed.

Lemma client_file_installs_one_capture_witness :
  exists patched,
    patch_each (getClientNodeModuleFileInstrumentation "lib") Scenario.client_prototype
      [VString "3.1.0"; VString "3.1.0"] = Some patched
    /\ (factory_behaviour <$> patched !! "raw")
       = Some (Some (storeContext (Sample.factory_new 13%nat)))
    /\ file_unpatch (getClientNodeModuleFileInstrumentation "lib") patched (VString "3.1.0")
       = Scenario.client_prototype.
Proof.
  destruct (client_file_installs_one_capture "lib" Scenario.client_prototype
              (Sample.factory_new 11%nat) (Sample.factory_new 12%nat)
              (Sample.factory_new 13%nat) [VString "3.1.0"] (VString "3.1.0"))
    as (patched & Hpatch & _ & _ & Hraw & _ & Hunpatch).
  - reflexivity.
  - reflexivity.
  - reflexivity.
  - exists patched. split; [exact Hpatch |]. split; [exact Hraw | exact Hunpatch].
Defined.

(** X4.  [init] registers five files, in this order: the client files
    [knex/src/client.js] and [knex/lib/client.js], then the runner files
    [knex/src/runner.js], [knex/lib/runner.js] and
    [knex/lib/execution/runner.js]; no name comes twice.  The patch of a
    client file puts the context capture around the three builder
    factories, the patch of a runner file puts the query wrapper of the
    loaded version around [query], and each file undoes its own patch: on
    a prototype that has the host's methods the file wraps, patch followed
    by unpatch is the identity. *)
Theorem init_files_undo_their_patch :
  (exists client_src client_lib runner_src runner_lib runner_execution,
     init = [inl client_src; inl client_lib;
             inr runner_src; inr runner_lib; inr runner_execution])
  /\ hooked_file <$> init
     = ["knex/src/client.js"; "knex/lib/client.js";
        "knex/src/runner.js"; "knex/lib/runner.js"; "knex/lib/execution/runner.js"]
  /\ NoDup (hooked_file <$> init)
  /\ Forall
       (fun file =>
          match file with
          | inl client_file =>
              forall (prototype : gmap string (Method Factory KnexWrapper))
                     (f1 f2 f3 : Factory) (v : JSValue),
                prototype !! "queryBuilder" = Some (HostMethod f1) ->
                prototype !! "schemaBuilder" = Some (HostMethod f2) ->
                prototype !! "raw" = Some (HostMethod f3) ->
                exists patched,
                  file_patch client_file prototype v = Some patched
                  /\ patched !! "queryBuilder"
                     = Some (Wrapped StoreContextWrapper (HostMethod f1))
                  /\ patched !! "schemaBuilder"
                     = Some (Wrapped StoreContextWrapper (HostMethod f2))
                  /\ patched !! "raw" = Some (Wrapped StoreContextWrapper (HostMethod f3))
                  /\ file_unpatch client_file patched v = prototype
          | inr runner_file =>
              forall (prototype : gmap string (Method HostQuery KnexWrapper))
                     (f : HostQuery) (v : JSValue),
                prototype !! "query" = Some (HostMethod f) ->
                exists patched,
                  file_patch runner_file prototype v = Some patched
                  /\ patched !! "query" = Some (Wrapped (QueryWrapper v) (HostMethod f))
                  /\ file_unpatch runner_file patched v = prototype
          end) init.
Proof.
  split; [unfold init; eauto 6 |].
  split; [reflexivity |].
  split.
  - apply (bool_decide_unpack _). vm_compute. reflexivity.
  - assert (forall basePath (prototype : gmap string (Method Factory KnexWrapper))
                   (f1 f2 f3 : Factory) (v : JSValue),
              prototype !! "queryBuilder" = Some (HostMethod f1) ->
              prototype !! "schemaBuilder" = Some (HostMethod f2) ->
              prototype !! "raw" = Some (HostMethod f3) ->
              exists patched,
                file_patch (getClientNodeModuleFileInstrumentation basePath) prototype v
                = Some patched
                /\ patched !! "queryBuilder"
                   = Some (Wrapped StoreContextWrapper (HostMethod f1))
                /\ patched !! "schemaBuilder"
                   = Some (Wrapped StoreContextWrapper (HostMethod f2))
                /\ patched !! "raw" = Some (Wrapped StoreContextWrapper (HostMethod f3))
                /\ file_unpatch (getClientNodeModuleFileInstrumentation basePath) patched v
                   = prototype) as Hclient.
    { intros basePath prototype f1 f2 f3 v H1 H2 H3.
      destruct (client_patch_step prototype _ _ _ H1 H2 H3)
        as (patched & Hpatch & K1 & K2 & K3 & Ko).
      exists patched. split; [exact Hpatch |].
      split; [exact K1 |]. split; [exact K2 |]. split; [exact K3 |].
      apply (client_unpatch_restores _ _ f1 f2 f3 H1 H2 H3 K1 K2 K3 Ko). }
    assert (forall basePath (prototype : gmap string (Method HostQuery KnexWrapper))
                   (f : HostQuery) (v : JSValue),
              prototype !! "query" = Some (HostMethod f) ->
              exists patched,
                file_patch (getRunnerNodeModuleFileInstrumentation basePath) prototype v
                = Some patched
                /\ patched !! "query" = Some (Wrapped (QueryWrapper v) (HostMethod f))
                /\ file_unpatch (getRunnerNodeModuleFileInstrumentation basePath) patched v
                   = prototype) as Hrunner.
    { intros basePath prototype f v Hquery. eexists. split; [| split].
      - apply (ensureWrapped_unfold _ _ _ _ Hquery).
      - apply lookup_insert_eq.
      - apply (_unwrap_wrapped _ _ _ _ Hquery). }
    unfold init. repeat constructor; first [apply Hclient | apply Hrunner].
Qed.

(** ** More on the query wrapper *)

Lemma originals_app (l1 l2 : list Call) :
  originals (l1 ++ l2) = originals l1 ++ originals l2.
Proof. apply flat_map_app. Qed.

Lemma originals_attribute_calls (self : Runner) (maxQueryLength sql : JSValue) :
  originals (attribute_calls self maxQueryLength sql) = [].
Proof. unfold attribute_calls. destruct (truthy maxQueryLength); reflexivity. Qed.

(** The handler of a rejection throws the rejection value after the three
    calls on the span, or a [TypeError] after none. *)
Lemma on_rejected_cases (self : Runner) (query : JSValue) (span : nat) (err : JSValue)
  (h : Heap) (log : list Call) :
  (exists m,
     nullish query = false
     /\ get h err (KString "message") = Normal (VString m)
     /\ on_rejected self query span err h log
        = (Raised err,
           log ++ [CallRecordException span
                     (otelExceptionFromKnexError err (cleaned_message self query h m));
                   CallSetStatus span ERROR (cleaned_message self query h m);
                   CallEnd span]))
  \/ (exists reason,
        (nullish query = true
         \/ forall m, get h err (KString "message") <> Normal (VString m))
        /\ on_rejected self query span err h log = (TypeError reason, log)).
Proof.
  destruct (nullish query) eqn:Hq.
  - right. eexists. split; [left; reflexivity | apply on_rejected_nullish, Hq].
  - assert ((exists m, get h err (KString "message") = Normal (VString m))
            \/ (exists reason,
                  (forall m, get h err (KString "message") <> Normal (VString m))
                  /\ match get h err (KString "message") with
                     | Throw e => e
                     | Normal _ => TypeError "err.message.replace is not a function"
                     end = TypeError reason)) as [(m & Hm) | (reason & Hno & Hreason)].
    { destruct err as [| | b | n | | s | c | l]; simpl;
        try (right; eexists; split; [intros m'; discriminate | reflexivity]; fail).
      destruct (get_own h l (KString "message")) as [| | b | n | | s | c | l'];
        try (right; eexists; split; [intros m'; discriminate | reflexivity]; fail).
      left. eauto. }
    + left. exists m. split; [reflexivity |]. split; [exact Hm |].
      apply on_rejected_handled; assumption.
    + right. exists reason. split; [right; exact Hno |].
      unfold on_rejected. rewrite !(get_not_nullish h query) by exact Hq.
      destruct (get h err (KString "message")) as [[| | | | | m | |] | e];
        try (simpl in Hreason; rewrite <- Hreason; reflexivity).
      exfalso. apply (Hno m). reflexivity.
Qed.

(** X5.  On every path the wrapper calls the original exactly once, on the
    same [this] and with the same arguments, under the ambient context
    when it bypasses and under the context that holds the new span
    otherwise.  It only appends to the log, it never writes to the heap
    (the heap afterwards is the one the original left), and the promise it
    returns settles as the original's does, unless the original rejected
    and the handler of the rejection failed with a [TypeError]. *)
Theorem wrapper_calls_original_once `{Utils} `{Tracing}
  (instrumentation : KnexInstrumentation) (moduleVersion : JSValue) (original : HostQuery)
  (ambient : Context) (self : Runner) (args : list JSValue) (h : Heap) (log : list Call) :
  let run :=
    createQueryWrapper instrumentation moduleVersion original ambient self args h log in
  let under :=
    if bypasses instrumentation ambient self h then ambient
    else traced_ambient ambient self h log in
  run.1.2 = (original under self args h).2
  /\ originals run.2 = originals log ++ [(under, self, args)]
  /\ (exists calls, run.2 = log ++ calls)
  /\ (run.1.1 = unchanged (original under self args h).1
      \/ exists err reason,
           (original under self args h).1 = Rejects err
           /\ run.1.1 = Rejected (TypeError reason)).
Proof.
  intros run under. subst run under.
  destruct (bypasses instrumentation ambient self h) eqn:Hb.
  - rewrite (createQueryWrapper_bypass _ _ _ _ _ _ _ _ Hb). cbv [fst snd].
    split; [reflexivity |]. split.
    + rewrite !originals_app, originals_attribute_calls. reflexivity.
    + split; [eexists; reflexivity | left; reflexivity].
  - destruct (traced_prefix_spans instrumentation moduleVersion ambient self args h log)
      as (_ & _ & _ & Hprefix & _).
    destruct (original (traced_ambient ambient self h log) self args h)
      as [[result | err] h'] eqn:Horig.
    + rewrite (createQueryWrapper_resolves _ _ _ _ _ _ _ _ result h' Hb Horig).
      cbv [fst snd]. split; [reflexivity |]. split.
      * rewrite !originals_app, Hprefix. reflexivity.
      * split; [eexists; reflexivity | left; reflexivity].
    + rewrite (createQueryWrapper_rejects _ _ _ _ _ _ _ _ err h' Hb Horig).
      cbv [fst snd].
      match goal with |- context [on_rejected ?a ?b ?c ?d ?e ?f] =>
        destruct (on_rejected_cases a b c d e f)
          as [(m & _ & _ & ->) | (reason & _ & ->)] end; cbv [fst snd].
      * split; [reflexivity |]. split.
        { rewrite !originals_app, Hprefix. simpl. rewrite ?app_nil_r. reflexivity. }
        split; [| left; reflexivity].
        eexists. rewrite <- !app_assoc. reflexivity.
      * split; [reflexivity |]. split.
        { rewrite !originals_app, Hprefix. simpl. rewrite ?app_nil_r. reflexivity. }
        split; [eexists; reflexivity | right; eauto].
Qed.

(** X6.  A traced execution starts its span with the kind [CLIENT], under
    the name [getName] makes of the database name ([filename ||
    database]), [query?.method] and the extracted table, and with the
    resolved context as parent.  The original then runs under the ambient
    context of the call with only the span replaced by the new one, also
    when the parent is a context captured on the builder; nothing else of
    the ambient context is changed. *)
Theorem span_is_started_as_client_on_ambient `{Utils} `{Tracing}
  (instrumentation : KnexInstrumentation) (moduleVersion : JSValue) (original : HostQuery)
  (ambient : Context) (self : Runner) (args : list JSValue) (h : Heap) (log : list Call) :
  bypasses instrumentation ambient self h = false ->
  let run :=
    createQueryWrapper instrumentation moduleVersion original ambient self args h log in
  let cfg := config (client self) in
  let name := js_or (connection_field filename cfg) (connection_field database cfg) in
  let operation := get_opt h (nth 0 args VUndefined) (KString "method") in
  let table := extractTableName h (builder self) in
  let parent := js_or (get_own h (builder self) contextSymbol) (VContext ambient) in
  exists attributes before under tail,
    run.2 = log ++ before
                ++ [CallGetName name operation table;
                    CallStartSpan (getName name operation table) CLIENT attributes parent;
                    CallOriginal under self args]
                ++ tail
    /\ started before = 0%nat /\ started tail = 0%nat
    /\ originals before = [] /\ originals tail = []
    /\ ctx_rest under = ctx_rest ambient
    /\ ctx_span under = Some (mkSpan (started log) (startedSpanContext (started log) parent)).
Proof.
  intros Hb run cfg name operation table parent. subst run.
  destruct (traced_log instrumentation moduleVersion original ambient self args h log Hb)
    as (tail & -> & Htail).
  exists (span_attributes instrumentation moduleVersion self args h),
         (attribute_calls self (maxQueryLength_of instrumentation)
            (get_opt h (query_of args) (KString "sql"))),
         (traced_ambient ambient self h log), tail.
  split.
  { unfold traced_prefix. rewrite <- !app_assoc. reflexivity. }
  split; [apply started_attribute_calls |].
  assert (started tail = 0%nat /\ originals tail = []) as [Hs Ho]
    by (destruct Htail as [-> | [-> | (exc & message & ->)]]; split; reflexivity).
  split; [exact Hs |]. split; [apply originals_attribute_calls |].
  split; [exact Ho |]. split; reflexivity.
Qed.

Lemma span_is_started_as_client_on_ambient_witness :
  exists attributes before under tail,
    (@createQueryWrapper Sample.utils Sample.tracing (new_KnexInstrumentation None)
       (VString "3.1.0") (Sample.host_resolves (VNumber 1)) Sample.ROOT_CONTEXT
       (Sample.runner_at "test.db" 7%nat) [VObject 2%nat] Scenario.heap []).2
    = before
      ++ [CallGetName (VString "test.db") (VString "select") VUndefined;
          CallStartSpan (VString "select") CLIENT attributes
            (VContext Sample.request_context);
          CallOriginal under (Sample.runner_at "test.db" 7%nat) [VObject 2%nat]]
      ++ tail
    /\ ctx_rest under = ctx_rest Sample.ROOT_CONTEXT
    /\ ctx_span under
       = Some (mkSpan 0 (mkSpanContext "4bf92f3577b34da6a3ce929d0e0e4736"
                           "b7ad6b7169203331")).
Proof.
  destruct (@span_is_started_as_client_on_ambient Sample.utils Sample.tracing
              (new_KnexInstrumentation None) (VString "3.1.0")
              (Sample.host_resolves (VNumber 1)) Sample.ROOT_CONTEXT
              (Sample.runner_at "test.db" 7%nat) [VObject 2%nat] Scenario.heap [])
    as (attributes & before & under & tail & Hrun & _ & _ & _ & _ & Hrest & Hspan).
  - vm_compute. reflexivity.
  - exists attributes, before, under, tail.
    split; [exact Hrun |]. split; [exact Hrest | exact Hspan].
Defined.

(** X7.  One execution starts one span or none.  It starts one exactly
    when [requireParentSpan] is falsy, or the resolved context (the one
    captured on the builder, else the ambient one) holds a span whose span
    context is valid. *)
Theorem span_started_iff_parent_allows `{Utils} `{Tracing}
  (instrumentation : KnexInstrumentation) (moduleVersion : JSValue) (original : HostQuery)
  (ambient : Context) (self : Runner) (args : list JSValue) (h : Heap) (log : list Call) :
  let run :=
    createQueryWrapper instrumentation moduleVersion original ambient self args h log in
  let requireParentSpan := option_of (getConfig instrumentation) "requireParentSpan" in
  let parent := js_or (get_own h (builder self) contextSymbol) (VContext ambient) in
  (started run.2 = started log \/ started run.2 = S (started log))
  /\ (started run.2 = S (started log)
      <-> truthy requireParentSpan = false
          \/ exists span,
               getSpan parent = Some span /\ isSpanContextValid (spanContext span) = true).
Proof.
  intros run requireParentSpan parent. subst run.
  destruct (execution_spans instrumentation moduleVersion original ambient self args h log)
    as (_ & _ & ->).
  unfold bypasses, hasActiveParent, parentContext_of.
  change (_config instrumentation) with (getConfig instrumentation).
  fold requireParentSpan. fold parent.
  destruct (truthy requireParentSpan); simpl.
  - destruct (getSpan parent) as [span |]; simpl.
    + destruct (isSpanContextValid (spanContext span)) eqn:Hvalid; simpl.
      * split; [right; lia |]. split; [eauto | lia].
      * split; [left; lia |]. split; [lia |].
        intros [Hf | (span' & Hsome & Hv)]; [discriminate |].
        injection Hsome as <-. congruence.
    + split; [left; lia |]. split; [lia |].
      intros [Hf | (span' & Hsome & _)]; discriminate.
  - split; [right; lia |]. split; [auto | lia].
Qed.

(** X8.  When the builder carries a captured context, that context alone
    decides whether a span is started: the ambient context of the
    execution plays no part.  So with [requireParentSpan] set, a builder
    made outside of any span is executed without a span even inside an
    active span, and a builder made inside a span is traced wherever it is
    executed. *)
Theorem captured_context_decides_alone `{Utils} `{Tracing}
  (instrumentation : KnexInstrumentation) (moduleVersion : JSValue) (original : HostQuery)
  (ambient : Context) (self : Runner) (args : list JSValue) (h : Heap) (log : list Call)
  (p : Property) (captured : Context) :
  own_property h (builder self) contextSymbol = Some p ->
  p_value p = VContext captured ->
  let run :=
    createQueryWrapper instrumentation moduleVersion original ambient self args h log in
  let decision :=
    truthy (option_of (getConfig instrumentation) "requireParentSpan")
    && negb (hasActiveParent (VContext captured)) in
  bypasses instrumentation ambient self h = decision
  /\ started run.2 = (started log + (if decision then 0 else 1))%nat
  /\ started_parents run.2
     = started_parents log ++ (if decision then [] else [VContext captured]).
Proof.
  intros Hp Hvalue run decision. subst run decision.
  assert (parentContext_of ambient self h = VContext captured) as Hparent.
  { unfold parentContext_of, get_own. rewrite Hp. simpl. rewrite Hvalue. reflexivity. }
  assert (bypasses instrumentation ambient self h
          = truthy (option_of (getConfig instrumentation) "requireParentSpan")
            && negb (hasActiveParent (VContext captured))) as Hb
    by (unfold bypasses; rewrite Hparent; reflexivity).
  split; [exact Hb |].
  destruct (execution_spans instrumentation moduleVersion original ambient self args h log)
    as (_ & -> & ->).
  rewrite Hb, Hparent. split; reflexivity.
Qed.

Lemma captured_context_decides_alone_witness :
  let options := Some (Sample.config_of (VNumber 1022) (VBool true)) in
  hasActiveParent (H := Sample.tracing) (VContext Sample.request_context) = true
  /\ started
       (@createQueryWrapper Sample.utils Sample.tracing (new_KnexInstrumentation options)
          (VString "3.1.0") (Sample.host_resolves (VNumber 1)) Sample.request_context
          (Sample.runner_at "test.db" 9%nat) [VObject 2%nat]
          Scenario.heap_with_root_builder []).2
     = 0%nat.
Proof.
  intros options. split; [reflexivity |].
  destruct (@captured_context_decides_alone Sample.utils Sample.tracing
              (new_KnexInstrumentation options) (VString "3.1.0")
              (Sample.host_resolves (VNumber 1)) Sample.request_context
              (Sample.runner_at "test.db" 9%nat) [VObject 2%nat]
              Scenario.heap_with_root_builder []
              (mkProperty (VContext Sample.ROOT_CONTEXT) false false false)
              Sample.ROOT_CONTEXT)
    as (_ & Hstarted & _).
  - reflexivity.
  - reflexivity.
  - exact Hstarted.
Defined.

Lemma attributes_literal_keys `{Utils} (moduleVersion : JSValue) (cfg : KnexConfig)
  (table operation name : JSValue) :
  dom (attributes_literal moduleVersion cfg table operation name)
  = list_to_set ["knex.version"; SEMATTRS_DB_SYSTEM; SEMATTRS_DB_SQL_TABLE;
                 SEMATTRS_DB_OPERATION; SEMATTRS_DB_USER; SEMATTRS_DB_NAME;
                 SEMATTRS_NET_PEER_NAME; SEMATTRS_NET_PEER_PORT; SEMATTRS_NET_TRANSPORT].
Proof.
  unfold attributes_literal. rewrite !dom_insert_L, dom_empty_L. set_solver.
Qed.

(** X9.  The attribute object of a traced execution has exactly the nine
    keys of the literal (version, system, table, operation, user, database
    name, peer host, peer port, transport) plus the statement key when
    [maxQueryLength] is truthy, and no other.  The version is the one the wrapper
    was made for and the system is what [mapSystem] makes of
    [config.client]. *)
Theorem span_attribute_keys `{Utils} `{Tracing}
  (instrumentation : KnexInstrumentation) (moduleVersion : JSValue) (original : HostQuery)
  (ambient : Context) (self : Runner) (args : list JSValue) (h : Heap) (log : list Call) :
  bypasses instrumentation ambient self h = false ->
  let run :=
    createQueryWrapper instrumentation moduleVersion original ambient self args h log in
  exists attributes,
    started_attributes run.2 = started_attributes log ++ [attributes]
    /\ dom attributes
       = list_to_set ["knex.version"; SEMATTRS_DB_SYSTEM; SEMATTRS_DB_SQL_TABLE;
                      SEMATTRS_DB_OPERATION; SEMATTRS_DB_USER; SEMATTRS_DB_NAME;
                      SEMATTRS_NET_PEER_NAME; SEMATTRS_NET_PEER_PORT;
                      SEMATTRS_NET_TRANSPORT]
         ∪ (if truthy (option_of (getConfig instrumentation) "maxQueryLength")
            then {[SEMATTRS_DB_STATEMENT]} else ∅)
    /\ attributes !! "knex.version" = Some moduleVersion
    /\ attributes !! SEMATTRS_DB_SYSTEM = Some (mapSystem (config_client (config (client self)))).
Proof.
  intros Hb run. subst run.
  destruct (execution_spans instrumentation moduleVersion original ambient self args h log)
    as (Hattrs & _). rewrite Hb in Hattrs.
  eexists. split; [exact Hattrs |].
  unfold span_attributes.
  rewrite !attributes_of_lookup by discriminate.
  match goal with |- context [attributes_literal ?a ?b ?c ?d ?e] =>
    destruct (attributes_literal_lookup a b c d e) as (Hversion & Hsystem & _);
    pose proof (attributes_literal_keys a b c d e) as Hkeys end.
  split; [| split; [exact Hversion | exact Hsystem]].
  unfold attributes_of, maxQueryLength_of.
  destruct (truthy (option_of (getConfig instrumentation) "maxQueryLength")).
  - rewrite dom_insert_L, Hkeys. set_solver.
  - rewrite Hkeys. set_solver.
Qed.

Lemma span_attribute_keys_witness :
  exists attributes,
    started_attributes
      (Sample.execute (Some (Sample.config_of (VNumber 0) (VBool false)))
         (Sample.host_resolves (VNumber 1)) Sample.ROOT_CONTEXT (Sample.runner "test.db")
         [VObject 2%nat]).2
    = [attributes]
    /\ attributes !! "knex.version" = Some (VString "3.1.0")
    /\ attributes !! SEMATTRS_DB_SYSTEM = Some (VString "sqlite").
Proof.
  destruct (@span_attribute_keys Sample.utils Sample.tracing
              (new_KnexInstrumentation (Some (Sample.config_of (VNumber 0) (VBool false))))
              (VString "3.1.0") (Sample.host_resolves (VNumber 1)) Sample.ROOT_CONTEXT
              (Sample.runner "test.db") [VObject 2%nat] Sample.heap [])
    as (attributes & Hstarted & _ & Hversion & Hsystem).
  - vm_compute. reflexivity.
  - exists attributes. split; [exact Hstarted |]. split; [exact Hversion | exact Hsystem].
Defined.

(** ** The message recorded for a rejection *)

Lemma string_length_append (a b : string) :
  String.length (a +:+ b) = (String.length a + String.length b)%nat.
Proof. induction a as [| c a IH]; simpl; [reflexivity | rewrite IH; reflexivity]. Qed.

Lemma prefix_true_split (p s : string) :
  String.prefix p s = true -> s = p +:+ string_drop (String.length p) s.
Proof.
  revert s. induction p as [| a p IH]; intros s Hp; [reflexivity |].
  destruct s as [| b s]; [discriminate |]. simpl in Hp.
  destruct (Ascii.ascii_dec a b) as [<- | Hne]; [| discriminate].
  change (String a s = String a (p +:+ string_drop (String.length p) s)).
  f_equal. apply IH, Hp.
Qed.

Lemma prefix_false_no_split (p s post : string) :
  String.prefix p s = false -> s <> p +:+ post.
Proof. intros Hp ->. rewrite prefix_append in Hp. discriminate. Qed.

(** [replace_first] cuts one occurrence out of the string, and leaves a
    string without an occurrence as it is. *)
Lemma replace_first_spec (pattern s : string) :
  (exists pre post,
     s = pre +:+ pattern +:+ post /\ replace_first pattern s = pre +:+ post)
  \/ (~ occurs pattern s /\ replace_first pattern s = s).
Proof.
  induction s as [| c s IH]; rewrite replace_first_unfold.
  - destruct (String.prefix pattern "") eqn:Hp.
    + left. exists "", (string_drop (String.length pattern) "").
      split; [apply (prefix_true_split _ _ Hp) | reflexivity].
    + right. split; [| reflexivity].
      intros (pre & post & Heq). destruct pre as [| a pre]; [| discriminate].
      exact (prefix_false_no_split _ _ _ Hp Heq).
  - destruct (String.prefix pattern (String c s)) eqn:Hp.
    + left. exists "", (string_drop (String.length pattern) (String c s)).
      split; [apply (prefix_true_split _ _ Hp) | reflexivity].
    + destruct IH as [(pre & post & Heq & ->) | (Hno & ->)].
      * left. exists (String c pre), post. split; [rewrite Heq |]; reflexivity.
      * right. split; [| reflexivity].
        intros (pre & post & Heq). destruct pre as [| a pre].
        -- exact (prefix_false_no_split _ _ _ Hp Heq).
        -- apply Hno. exists pre, post.
           change (String c s = String a (pre +:+ pattern +:+ post)) in Heq.
           injection Heq as _ Heq. exact Heq.
Qed.

(** X10.  When the handler of a rejection runs through, the exception and
    the error status it records on the span carry the same message: the
    message of the error with one occurrence of the interpolated statement
    followed by [" - "] cut out.  A message that does not contain that text
    is recorded as it is, and the recorded message is never longer than
    the error's. *)
Theorem recorded_message_is_the_cut_message `{Utils} `{Tracing}
  (instrumentation : KnexInstrumentation) (moduleVersion : JSValue) (original : HostQuery)
  (ambient : Context) (self : Runner) (args : list JSValue) (h : Heap) (log : list Call)
  (err : JSValue) (h' : Heap) (m : string) :
  bypasses instrumentation ambient self h = false ->
  original (traced_ambient ambient self h log) self args h = (Rejects err, h') ->
  nullish (query_of args) = false ->
  get h' err (KString "message") = Normal (VString m) ->
  let run :=
    createQueryWrapper instrumentation moduleVersion original ambient self args h log in
  let statement :=
    getFormatter self h' (get_opt h' (query_of args) (KString "sql"))
      (if truthy (get_opt h' (query_of args) (KString "bindings"))
       then GivenBindings (get_opt h' (query_of args) (KString "bindings"))
       else EmptyArray) in
  exists calls recorded,
    run.2 = log ++ calls
    /\ recorded_exceptions (started log) calls = [mkOtelException recorded err]
    /\ recorded_statuses (started log) calls = [(ERROR, recorded)]
    /\ ((exists pre post,
           m = pre +:+ (statement +:+ " - ") +:+ post /\ recorded = pre +:+ post)
        \/ (~ occurs (statement +:+ " - ") m /\ recorded = m))
    /\ (forall rest, m = (statement +:+ " - ") +:+ rest -> recorded = rest)
    /\ (String.length recorded <= String.length m)%nat.
Proof.
  intros Hb Horig Hq Hm run statement. subst run.
  rewrite (rejection_recorded_then_rethrown _ _ _ _ _ _ _ _ err h' m Hb Horig Hq Hm).
  eexists. exists (cleaned_message self (query_of args) h' m).
  split; [reflexivity |].
  assert (forall l, recorded_exceptions (started log)
                      (traced_prefix instrumentation moduleVersion ambient self args h ++ l)
                    = recorded_exceptions (started log) l
                    /\ recorded_statuses (started log)
                         (traced_prefix instrumentation moduleVersion ambient self args h ++ l)
                       = recorded_statuses (started log) l) as Hprefix.
  { intros l. unfold traced_prefix, attribute_calls.
    destruct (truthy (maxQueryLength_of instrumentation)); split; reflexivity. }
  destruct (Hprefix [CallOriginal (traced_ambient ambient self h log) self args;
                     CallRecordException (started log)
                       (mkOtelException (cleaned_message self (query_of args) h' m) err);
                     CallSetStatus (started log) ERROR
                       (cleaned_message self (query_of args) h' m);
                     CallEnd (started log)]) as (-> & ->).
  simpl. rewrite Nat.eqb_refl.
  split; [reflexivity |]. split; [reflexivity |].
  unfold cleaned_message, fullQuery_of. fold statement.
  split; [apply replace_first_spec |]. split.
  - intros rest ->. apply replace_first_prefix.
  - destruct (replace_first_spec (statement +:+ " - ") m)
      as [(pre & post & -> & ->) | (_ & ->)]; [| lia].
    rewrite !string_length_append. lia.
Qed.

Lemma recorded_message_is_the_cut_message_witness :
  exists calls,
    (Sample.execute None (Sample.host_rejects (VObject 3%nat)) Sample.ROOT_CONTEXT
       (Sample.runner "test.db") [VObject 2%nat]).2 = calls
    /\ recorded_statuses 0 calls = [(ERROR, "SQLITE_ERROR: no such table: users")].
Proof.
  destruct (@recorded_message_is_the_cut_message Sample.utils Sample.tracing
              (new_KnexInstrumentation None) (VString "3.1.0")
              (Sample.host_rejects (VObject 3%nat)) Sample.ROOT_CONTEXT
              (Sample.runner "test.db") [VObject 2%nat] Sample.heap []
              (VObject 3%nat) Sample.heap
              "select * from users - SQLITE_ERROR: no such table: users")
    as (calls & recorded & Hrun & _ & Hstatus & _ & Hcut & _).
  - vm_compute. reflexivity.
  - reflexivity.
  - reflexivity.
  - vm_compute. reflexivity.
  - exists calls. split; [exact Hrun |].
    rewrite <- (Hcut "SQLITE_ERROR: no such table: users" eq_refl). exact Hstatus.
Defined.

(** X11.  When the original rejects with a value that has no string
    [message] ([undefined], [null], a primitive, an object without the
    property), the handler of the rejection fails at [err.message.replace],
    whatever the query is: the promise of the wrapper rejects with a
    [TypeError] instead of that value, nothing is recorded on the span and
    the span is not ended. *)
Theorem rejection_without_message_fails_the_handler `{Utils} `{Tracing}
  (instrumentation : KnexInstrumentation) (moduleVersion : JSValue) (original : HostQuery)
  (ambient : Context) (self : Runner) (args : list JSValue) (h : Heap) (log : list Call)
  (err : JSValue) (h' : Heap) :
  bypasses instrumentation ambient self h = false ->
  original (traced_ambient ambient self h log) self args h = (Rejects err, h') ->
  (forall m, get h' err (KString "message") <> Normal (VString m)) ->
  let run :=
    createQueryWrapper instrumentation moduleVersion original ambient self args h log in
  exists reason calls,
    run = (Rejected (TypeError reason), h', log ++ calls)
    /\ Rejected (TypeError reason) <> Rejected (Raised err)
    /\ started calls = 1%nat
    /\ ends_of (started log) calls = 0%nat
    /\ recorded_exceptions (started log) calls = []
    /\ recorded_statuses (started log) calls = [].
Proof.
  intros Hb Horig Hno run. subst run.
  rewrite (createQueryWrapper_rejects _ _ _ _ _ _ _ _ err h' Hb Horig).
  match goal with |- context [on_rejected ?a ?b ?c ?d ?e ?f] =>
    destruct (on_rejected_cases a b c d e f)
      as [(m & _ & Hm & _) | (reason & _ & ->)] end.
  - exfalso. exact (Hno m Hm).
  - exists reason. eexists. cbv [fst snd]. split; [reflexivity |].
    split; [discriminate |].
    destruct (traced_prefix_spans instrumentation moduleVersion ambient self args h log)
      as (_ & _ & Hs & _ & He).
    rewrite started_app, ends_of_app, Hs, He.
    split; [reflexivity |]. split; [reflexivity |].
    unfold traced_prefix, attribute_calls.
    destruct (truthy (maxQueryLength_of instrumentation)); split; reflexivity.
Qed.

Lemma rejection_without_message_fails_the_handler_witness :
  exists reason,
    (Sample.execute None (Sample.host_rejects (VString "connection lost"))
       Sample.ROOT_CONTEXT (Sample.runner "test.db") [VObject 2%nat]).1
    = (Rejected (TypeError reason), Sample.heap).
Proof.
  destruct (@rejection_without_message_fails_the_handler Sample.utils Sample.tracing
              (new_KnexInstrumentation None) (VString "3.1.0")
              (Sample.host_rejects (VString "connection lost")) Sample.ROOT_CONTEXT
              (Sample.runner "test.db") [VObject 2%nat] Sample.heap []
              (VString "connection lost") Sample.heap)
    as (reason & calls & Hrun & _).
  - vm_compute. reflexivity.
  - reflexivity.
  - intros m. discriminate.
  - exists reason. unfold Sample.execute. rewrite Hrun. reflexivity.
Defined.

Lemma captured_parent (ambient : Context) (self : Runner) (h : Heap) (p : Property)
  (captured : Context) :
  own_property h (builder self) contextSymbol = Some p ->
  p_value p = VContext captured ->
  parentContext_of ambient self h = VContext captured.
Proof.
  intros Hp Hvalue. unfold parentContext_of, get_own. rewrite Hp. simpl.
  rewrite Hvalue. reflexivity.
Qed.

(** X12.  Two queries executed one after the other on the same builder,
    under whatever ambient contexts, both take the context captured on the
    builder as parent, as long as the host leaves that property alone: the
    log gains two spans with that same parent, or none when the captured
    context does not allow a span. *)
Theorem queries_on_one_builder_share_the_parent `{Utils} `{Tracing}
  (instrumentation : KnexInstrumentation) (moduleVersion : JSValue)
  (first second : HostQuery) (ambient1 ambient2 : Context) (self : Runner)
  (args1 args2 : list JSValue) (h : Heap) (log : list Call)
  (p : Property) (captured : Context) :
  own_property h (builder self) contextSymbol = Some p ->
  p_value p = VContext captured ->
  let run1 :=
    createQueryWrapper instrumentation moduleVersion first ambient1 self args1 h log in
  own_property run1.1.2 (builder self) contextSymbol = Some p ->
  let run2 :=
    createQueryWrapper instrumentation moduleVersion second ambient2 self args2
      run1.1.2 run1.2 in
  let decision :=
    truthy (option_of (getConfig instrumentation) "requireParentSpan")
    && negb (hasActiveParent (VContext captured)) in
  started_parents run2.2
  = started_parents log
    ++ (if decision then [] else [VContext captured; VContext captured])
  /\ started run2.2 = (started log + (if decision then 0 else 2))%nat.
Proof.
  intros Hp Hvalue run1 Hkept run2 decision. subst run2 decision.
  destruct (execution_spans instrumentation moduleVersion second ambient2 self args2
              run1.1.2 run1.2) as (_ & -> & ->).
  subst run1.
  destruct (execution_spans instrumentation moduleVersion first ambient1 self args1 h log)
    as (_ & -> & ->).
  unfold bypasses.
  rewrite (captured_parent ambient1 self h p captured Hp Hvalue).
  rewrite (captured_parent ambient2 self _ p captured Hkept Hvalue).
  change (_config instrumentation) with (getConfig instrumentation).
  destruct (truthy (option_of (getConfig instrumentation) "requireParentSpan")
            && negb (hasActiveParent (VContext captured))).
  - rewrite !app_nil_r. split; [reflexivity | lia].
  - rewrite <- app_assoc. split; [reflexivity | lia].
Qed.

Lemma queries_on_one_builder_share_the_parent_witness :
  started_parents
    (@createQueryWrapper Sample.utils Sample.tracing (new_KnexInstrumentation None)
       (VString "3.1.0") (Sample.host_rejects (VObject 3%nat)) Sample.ROOT_CONTEXT
       (Sample.runner_at "test.db" 7%nat) [VObject 2%nat]
       (@createQueryWrapper Sample.utils Sample.tracing (new_KnexInstrumentation None)
          (VString "3.1.0") (Sample.host_resolves (VNumber 1)) Sample.ROOT_CONTEXT
          (Sample.runner_at "test.db" 7%nat) [VObject 2%nat] Scenario.heap []).1.2
       (@createQueryWrapper Sample.utils Sample.tracing (new_KnexInstrumentation None)
          (VString "3.1.0") (Sample.host_resolves (VNumber 1)) Sample.ROOT_CONTEXT
          (Sample.runner_at "test.db" 7%nat) [VObject 2%nat] Scenario.heap []).2).2
  = [VContext Sample.request_context; VContext Sample.request_context].
Proof.
  destruct (@queries_on_one_builder_share_the_parent Sample.utils Sample.tracing
              (new_KnexInstrumentation None) (VString "3.1.0")
              (Sample.host_resolves (VNumber 1)) (Sample.host_rejects (VObject 3%nat))
              Sample.ROOT_CONTEXT Sample.ROOT_CONTEXT (Sample.runner_at "test.db" 7%nat)
              [VObject 2%nat] [VObject 2%nat] Scenario.heap []
              (mkProperty (VContext Sample.request_context) false false false)
              Sample.request_context)
    as (Hparents & _).
  - reflexivity.
  - reflexivity.
  - vm_compute. reflexivity.
  - exact Hparents.
Defined.

(** X13.  An instrumentation whose options do not name [requireParentSpan]
    never bypasses: every execution starts exactly one span, with or
    without a parent.  When the options do not name [maxQueryLength]
    either, the statement attribute of that span is what [limitLength]
    makes of [query?.sql] and the default 1022. *)
Theorem unset_options_trace_every_query `{Utils} `{Tracing}
  (options : option (gmap string JSValue)) (previous : KnexInstrumentation)
  (moduleVersion : JSValue) (original : HostQuery)
  (ambient : Context) (self : Runner) (args : list JSValue) (h : Heap) (log : list Call) :
  or_empty options !! "requireParentSpan" = None ->
  let instrumentation := setConfig options previous in
  let run :=
    createQueryWrapper instrumentation moduleVersion original ambient self args h log in
  instrumentation = new_KnexInstrumentation options
  /\ bypasses instrumentation ambient self h = false
  /\ started run.2 = S (started log)
  /\ exists attributes,
       started_attributes run.2 = started_attributes log ++ [attributes]
       /\ (or_empty options !! "maxQueryLength" = None ->
           attributes !! SEMATTRS_DB_STATEMENT
           = Some (limitLength (get_opt h (query_of args) (KString "sql")) (VNumber 1022))).
Proof.
  intros Hunset instrumentation run. subst run.
  assert (bypasses instrumentation ambient self h = false) as Hb.
  { unfold bypasses, option_of. subst instrumentation. simpl.
    rewrite spread_lookup, Hunset. reflexivity. }
  split; [reflexivity |]. split; [exact Hb |].
  destruct (execution_spans instrumentation moduleVersion original ambient self args h log)
    as (Hattrs & _ & Hstarted).
  rewrite Hb in Hattrs, Hstarted.
  split; [rewrite Hstarted; lia |].
  eexists. split; [exact Hattrs |].
  intros Hlen. unfold span_attributes. rewrite attributes_of_statement.
  assert (maxQueryLength_of instrumentation = VNumber 1022) as ->.
  { unfold maxQueryLength_of, option_of. subst instrumentation. simpl.
    rewrite spread_lookup, Hlen. reflexivity. }
  reflexivity.
Qed.

Lemma unset_options_trace_every_query_witness :
  started
    (Sample.execute (Some (Sample.undefined_maxQueryLength))
       (Sample.host_resolves (VNumber 1)) Sample.ROOT_CONTEXT (Sample.runner "test.db")
       [VObject 2%nat]).2
  = 1%nat.
Proof.
  destruct (@unset_options_trace_every_query Sample.utils Sample.tracing
              (Some Sample.undefined_maxQueryLength) (new_KnexInstrumentation None)
              (VString "3.1.0") (Sample.host_resolves (VNumber 1)) Sample.ROOT_CONTEXT
              (Sample.runner "test.db") [VObject 2%nat] Sample.heap [])
    as (_ & _ & Hstarted & _).
  - reflexivity.
  - exact Hstarted.
Defined.

(** ** More on the wrapped builder factories *)

(** X14.  When the original factory returns something that is not an
    object, or a new object that cannot take properties, the wrapped
    factory does not return it: [Object.defineProperty] throws a
    [TypeError], which the wrapped factory lets through, and the heap is
    the one the original left. *)
Theorem storeContext_needs_an_extensible_object (original : Factory) (ambient : Context)
  (self : JSValue) (args : list JSValue) (h : Heap) (b : JSValue) (h1 : Heap) :
  original ambient self args h = (Normal b, h1) ->
  match b with
  | VObject l =>
      match h1 !! l with
      | Some o => o_props o !! contextSymbol = None /\ o_extensible o = false
      | None => False
      end
  | _ => True
  end ->
  exists reason,
    storeContext original ambient self args h = (Throw (TypeError reason), h1).
Proof.
  intros Horig Hb. rewrite storeContext_cases, Horig.
  destruct b as [| | x | n | | s | c | l]; try (eexists; reflexivity).
  unfold defineProperty. destruct (h1 !! l) as [o |]; [| contradiction].
  destruct Hb as [-> ->]. eexists. reflexivity.
Qed.

Lemma storeContext_needs_an_extensible_object_witness :
  (exists reason,
     storeContext (Scenario.factory_returns VUndefined) Sample.request_context VUndefined []
       Sample.heap
     = (Throw (TypeError reason), Sample.heap))
  /\ exists reason,
       storeContext (Scenario.factory_returns (VObject 8%nat)) Sample.request_context
         VUndefined [] Scenario.sealed_heap
       = (Throw (TypeError reason), Scenario.sealed_heap).
Proof.
  split.
  - apply (storeContext_needs_an_extensible_object (Scenario.factory_returns VUndefined)
             Sample.request_context VUndefined [] Sample.heap VUndefined Sample.heap);
      [reflexivity | exact I].
  - apply (storeContext_needs_an_extensible_object
             (Scenario.factory_returns (VObject 8%nat)) Sample.request_context VUndefined []
             Scenario.sealed_heap (VObject 8%nat) Scenario.sealed_heap);
      [reflexivity | split; reflexivity].
Defined.

(** X15.  The first captured context stays.  When the original factory
    returns a builder that already carries a captured context, the wrapped
    factory returns it untouched if the ambient context is that same
    context, and throws a [TypeError] if it is another one; in both cases
    the heap is the one the original left, so the builder still carries
    the first context. *)
Theorem first_captured_context_stays (original : Factory) (ambient : Context)
  (self : JSValue) (args : list JSValue) (h : Heap) (l : loc) (h1 : Heap)
  (captured : Context) :
  original ambient self args h = (Normal (VObject l), h1) ->
  own_property h1 l contextSymbol = Some (mkProperty (VContext captured) false false false) ->
  (ambient = captured ->
   storeContext original ambient self args h = (Normal (VObject l), h1))
  /\ (ambient <> captured ->
      exists reason,
        storeContext original ambient self args h = (Throw (TypeError reason), h1))
  /\ forall r h2,
       storeContext original ambient self args h = (r, h2) ->
       own_property h2 l contextSymbol
       = Some (mkProperty (VContext captured) false false false).
Proof.
  intros Horig Hp. rewrite storeContext_cases, Horig.
  unfold own_property in Hp. unfold defineProperty.
  destruct (h1 !! l) as [o |] eqn:Hl; [| discriminate]. simpl in Hp. rewrite Hp. simpl.
  destruct (decide (ambient = captured)) as [-> | Hne].
  - rewrite bool_decide_eq_true_2 by reflexivity.
    split; [reflexivity |]. split; [congruence |].
    intros r h2 Heq. injection Heq as _ <-.
    unfold own_property. rewrite Hl. exact Hp.
  - rewrite bool_decide_eq_false_2 by congruence.
    split; [contradiction |]. split; [eauto |].
    intros r h2 Heq. injection Heq as _ <-.
    unfold own_property. rewrite Hl. exact Hp.
Qed.

Lemma first_captured_context_stays_witness :
  storeContext (Scenario.factory_returns (VObject 7%nat)) Sample.request_context VUndefined []
    Scenario.heap
  = (Normal (VObject 7%nat), Scenario.heap)
  /\ exists reason,
       storeContext (Scenario.factory_returns (VObject 7%nat)) Sample.ROOT_CONTEXT
         VUndefined [] Scenario.heap
       = (Throw (TypeError reason), Scenario.heap).
Proof.
  split.
  - destruct (first_captured_context_stays (Scenario.factory_returns (VObject 7%nat))
                Sample.request_context VUndefined [] Scenario.heap 7%nat Scenario.heap
                Sample.request_context) as (Hsame & _);
      [reflexivity | reflexivity | apply Hsame; reflexivity].
  - destruct (first_captured_context_stays (Scenario.factory_returns (VObject 7%nat))
                Sample.ROOT_CONTEXT VUndefined [] Scenario.heap 7%nat Scenario.heap
                Sample.request_context) as (_ & Hother & _);
      [reflexivity | reflexivity | apply Hother; discriminate].
Defined.

Lemma defineProperty_again (h h2 : Heap) (target : JSValue) (k : PropKey) (v : JSValue) :
  defineProperty h target k v = Normal h2 ->
  defineProperty h2 target k v = Normal h2.
Proof.
  unfold defineProperty. destruct target as [| | | | | | | l]; try discriminate.
  destruct (h !! l) as [o |] eqn:Hl; [| discriminate].
  destruct (o_props o !! k) as [p |] eqn:Hk.
  - destruct (p_configurable p || p_writable p) eqn:Hcw.
    + intros Heq. injection Heq as <-.
      rewrite lookup_insert_eq. simpl. rewrite lookup_insert_eq. simpl. rewrite Hcw.
      rewrite !insert_insert_eq. reflexivity.
    + destruct (bool_decide (p_value p = v)) eqn:Hv; [| discriminate].
      intros Heq. injection Heq as <-. rewrite Hl, Hk, Hcw, Hv. reflexivity.
  - destruct (o_extensible o); [| discriminate].
    intros Heq. injection Heq as <-.
    rewrite lookup_insert_eq. simpl. rewrite lookup_insert_eq. simpl.
    rewrite bool_decide_eq_true_2 by reflexivity. reflexivity.
Qed.

(** X16.  [storeContext] applied twice is [storeContext] applied once: a
    factory wrapped by two layers of it returns, throws and leaves the heap
    exactly as with one layer, for every original, receiver and heap. *)
Theorem storeContext_twice_is_once (original : Factory) (ambient : Context)
  (self : JSValue) (args : list JSValue) (h : Heap) :
  storeContext (storeContext original) ambient self args h
  = storeContext original ambient self args h.
Proof.
  rewrite (storeContext_cases (storeContext original)).
  destruct (storeContext original ambient self args h) as [[b | e] h2] eqn:Hinner;
    [| reflexivity].
  rewrite storeContext_cases in Hinner.
  destruct (original ambient self args h) as [[b0 | e0] h1]; [| discriminate].
  destruct (defineProperty h1 b0 contextSymbol (VContext ambient)) as [h2' | e] eqn:Hdef;
    [| discriminate].
  injection Hinner as <- <-.
  rewrite (defineProperty_again _ _ _ _ _ Hdef). reflexivity.
Qed.
